(** * anyappinc/fitbit: the OAuth 2.0 + PKCE client and the locale table

    A shallow embedding of [localization.go], of the constants file and of
    the authorization file (Token, tokenRefresher, AuthCodeURL, Link),
    together with the parts of Go's standard library and of
    golang.org/x/oauth2 that these functions call. *)

From Stdlib Require Import ZArith List Ascii String Lia Bool.
From Stdlib.Strings Require Import Byte.
From stdpp Require Import base option list gmap strings.

(* ===================================================================== *)
(** ** localization.go *)
(* ===================================================================== *)

Module Localization.
Local Open Scope string_scope.

(** [type Locale string] *)
Definition Locale : Type := string.

(** The first constant is declared with the type [Locale]; the others are
    untyped string constants, converted where a [Locale] is expected. *)
Definition LocaleAustralia : Locale := "en_AU".
Definition LocaleFrance : string := "fr_FR".
Definition LocaleGermany : string := "de_DE".
Definition LocaleJapan : string := "ja_JP".
Definition LocaleNewZealand : string := "en_NZ".
Definition LocaleSpain : string := "es_ES".
Definition LocaleUnitedKingdom : string := "en_GB".
Definition LocaleUnitedStates : string := "en_US".

(** [func (l *Locale) asString() string]; a nil pointer is [None]. *)
Definition asString (l : option Locale) : string :=
  match l with
  | None => ""
  | Some s => s
  end.

Record Unit : Type := mkUnit {
  Distance : string;
  Elevation : string;
  Height : string;
  Weight : string;
  BodyMeasurements : string;
  Liquids : string;
  BloodGlucose : string
}.

Definition UnitedStatesUnit : Unit :=
  {| Distance := "mile"; Elevation := "ft"; Height := "in"; Weight := "lb";
     BodyMeasurements := "in"; Liquids := "fl oz"; BloodGlucose := "mg/dL" |}.

Definition UnitedKingdomUnit : Unit :=
  {| Distance := "km"; Elevation := "m"; Height := "cm"; Weight := "st";
     BodyMeasurements := "cm"; Liquids := "ml"; BloodGlucose := "mmol/l" |}.

Definition MetricUnit : Unit :=
  {| Distance := "km"; Elevation := "m"; Height := "cm"; Weight := "kg";
     BodyMeasurements := "cm"; Liquids := "ml"; BloodGlucose := "mmol/l" |}.

(** [func getCorrespondingUnit(locale Locale) *Unit]: the result is a
    pointer, [None] standing for nil; the three package variables are
    the pointers to the records above. *)
Definition getCorrespondingUnit (locale : Locale) : option Unit :=
  if String.eqb locale LocaleUnitedStates then Some UnitedStatesUnit
  else if String.eqb locale LocaleUnitedKingdom then Some UnitedKingdomUnit
  else Some MetricUnit.

End Localization.

(* ===================================================================== *)
(** ** Go bytes: [byte] is an 8-bit value, [[]byte] a list of them *)
(* ===================================================================== *)

Module GoBytes.
Local Open Scope Z_scope.
Local Open Scope string_scope.

Definition to_Z (b : byte) : Z := Z.of_N (Byte.to_N b).

(** The conversion [byte(v)] of an unsigned integer keeps the low 8 bits. *)
Definition of_Z (v : Z) : byte :=
  match Byte.of_N (Z.to_N (v mod 256)) with
  | Some b => b
  | None => x00
  end.

(** [string(bs)] and [[]byte(s)]: a Go string is its bytes. *)
Definition to_string (bs : list byte) : string := string_of_list_byte bs.
Definition of_string (s : string) : list byte := list_byte_of_string s.

End GoBytes.

(* ===================================================================== *)
(** ** crypto/sha256 *)
(* ===================================================================== *)

Module Sha256.
Import GoBytes.
Local Open Scope Z_scope.

(** A [uint32] is a [Z] in [0, 2^32); sums wrap around. *)
Definition u32 (z : Z) : Z := z mod 4294967296.
Definition u64 (z : Z) : Z := z mod 18446744073709551616.

Definition add32 (a b : Z) : Z := u32 (a + b).

(** [bits.RotateLeft32(x, -k)] for [0 < k < 32]. *)
Definition rotr (x k : Z) : Z :=
  Z.lor (Z.shiftr x k) (u32 (Z.shiftl x (32 - k))).

(** [^x] on a [uint32]. *)
Definition not32 (x : Z) : Z := Z.lxor x 0xFFFFFFFF.

Definition _K : list Z :=
  0x428a2f98 :: 0x71374491 :: 0xb5c0fbcf :: 0xe9b5dba5 ::
  0x3956c25b :: 0x59f111f1 :: 0x923f82a4 :: 0xab1c5ed5 ::
  0xd807aa98 :: 0x12835b01 :: 0x243185be :: 0x550c7dc3 ::
  0x72be5d74 :: 0x80deb1fe :: 0x9bdc06a7 :: 0xc19bf174 ::
  0xe49b69c1 :: 0xefbe4786 :: 0x0fc19dc6 :: 0x240ca1cc ::
  0x2de92c6f :: 0x4a7484aa :: 0x5cb0a9dc :: 0x76f988da ::
  0x983e5152 :: 0xa831c66d :: 0xb00327c8 :: 0xbf597fc7 ::
  0xc6e00bf3 :: 0xd5a79147 :: 0x06ca6351 :: 0x14292967 ::
  0x27b70a85 :: 0x2e1b2138 :: 0x4d2c6dfc :: 0x53380d13 ::
  0x650a7354 :: 0x766a0abb :: 0x81c2c92e :: 0x92722c85 ::
  0xa2bfe8a1 :: 0xa81a664b :: 0xc24b8b70 :: 0xc76c51a3 ::
  0xd192e819 :: 0xd6990624 :: 0xf40e3585 :: 0x106aa070 ::
  0x19a4c116 :: 0x1e376c08 :: 0x2748774c :: 0x34b0bcb5 ::
  0x391c0cb3 :: 0x4ed8aa4a :: 0x5b9cca4f :: 0x682e6ff3 ::
  0x748f82ee :: 0x78a5636f :: 0x84c87814 :: 0x8cc70208 ::
  0x90befffa :: 0xa4506ceb :: 0xbef9a3f7 :: 0xc67178f2 ::
  nil.

(** The eight chaining values [h0 .. h7], also the working variables
    [a .. h] of a round. *)
Record regs : Type := mkRegs {
  r0 : Z; r1 : Z; r2 : Z; r3 : Z; r4 : Z; r5 : Z; r6 : Z; r7 : Z
}.

Definition init : regs :=
  mkRegs 0x6a09e667 0xbb67ae85 0x3c6ef372 0xa54ff53a
         0x510e527f 0x9b05688c 0x1f83d9ab 0x5be0cd19.

Definition at_ (p : list byte) (j : nat) : Z := to_Z (nth j p x00).

(** [uint32(p[j])<<24 | uint32(p[j+1])<<16 | uint32(p[j+2])<<8 | uint32(p[j+3])] *)
Definition be32 (p : list byte) (j : nat) : Z :=
  Z.lor (Z.lor (Z.lor (Z.shiftl (at_ p j) 24) (Z.shiftl (at_ p (j + 1)) 16))
               (Z.shiftl (at_ p (j + 2)) 8))
        (at_ p (j + 3)).

(** One pass of [for i := 16; i < 64; i++]: [w] holds [w[0..i)]. *)
Definition schedule_next (w : list Z) : Z :=
  let i := length w in
  let v1 := nth (i - 2) w 0 in
  let t1 := Z.lxor (Z.lxor (rotr v1 17) (rotr v1 19)) (Z.shiftr v1 10) in
  let v2 := nth (i - 15) w 0 in
  let t2 := Z.lxor (Z.lxor (rotr v2 7) (rotr v2 18)) (Z.shiftr v2 3) in
  u32 (t1 + nth (i - 7) w 0 + t2 + nth (i - 16) w 0).

Fixpoint schedule_fill (n : nat) (w : list Z) : list Z :=
  match n with
  | O => w
  | S n' => schedule_fill n' (w ++ [schedule_next w])
  end.

Definition schedule (p : list byte) : list Z :=
  schedule_fill 48 (map (fun i => be32 p (i * 4)) (seq 0 16)).

(** The body of [for i := 0; i < 64; i++], with [kw = (_K[i], w[i])]. *)
Definition round (v : regs) (kw : Z * Z) : regs :=
  let '(mkRegs a b c d e f g h) := v in
  let t1 :=
    u32 (h + Z.lxor (Z.lxor (rotr e 6) (rotr e 11)) (rotr e 25)
           + Z.lxor (Z.land e f) (Z.land (not32 e) g)
           + fst kw + snd kw) in
  let t2 :=
    u32 (Z.lxor (Z.lxor (rotr a 2) (rotr a 13)) (rotr a 22)
         + Z.lxor (Z.lxor (Z.land a b) (Z.land a c)) (Z.land b c)) in
  mkRegs (add32 t1 t2) a b c (add32 d t1) e f g.

(** One iteration of the outer loop of [blockGeneric] on the first 64
    bytes of [p]. *)
Definition block1 (H : regs) (p : list byte) : regs :=
  let v := fold_left round (combine _K (schedule p)) H in
  mkRegs (add32 (r0 H) (r0 v)) (add32 (r1 H) (r1 v)) (add32 (r2 H) (r2 v))
         (add32 (r3 H) (r3 v)) (add32 (r4 H) (r4 v)) (add32 (r5 H) (r5 v))
         (add32 (r6 H) (r6 v)) (add32 (r7 H) (r7 v)).

(** [for len(p) >= chunk { ...; p = p[chunk:] }]; [n] bounds the number
    of iterations and [length p] is always enough. *)
Fixpoint blockLoop (n : nat) (H : regs) (p : list byte) : regs :=
  match n with
  | O => H
  | S n' =>
      if (64 <=? length p)%nat
      then blockLoop n' (block1 H p) (skipn 64 p)
      else H
  end.

Definition blockGeneric (H : regs) (p : list byte) : regs :=
  blockLoop (length p) H p.

(** [type digest struct { h [8]uint32; x [chunk]byte; nx int; len uint64 }]:
    [x] keeps the [nx] buffered bytes, so [nx = length x]. *)
Record digest : Type := mkDigest {
  h : regs;
  x : list byte;
  len : Z
}.

Definition Reset : digest := mkDigest init [] 0.

(** [func (d *digest) Write(p []byte)] *)
Definition Write (d : digest) (p : list byte) : digest :=
  let len' := u64 (len d + Z.of_nat (length p)) in
  let '(h1, x1, p1) :=
    if (0 <? length (x d))%nat then
      let n := Nat.min (64 - length (x d)) (length p) in
      let xs := x d ++ firstn n p in
      if (length xs =? 64)%nat
      then (blockGeneric (h d) xs, [], skipn n p)
      else (h d, xs, skipn n p)
    else (h d, x d, p) in
  let '(h2, p2) :=
    if (64 <=? length p1)%nat then
      let n := (length p1 / 64 * 64)%nat in
      (blockGeneric h1 (firstn n p1), skipn n p1)
    else (h1, p1) in
  let x2 := if (0 <? length p2)%nat then p2 else x1 in
  mkDigest h2 x2 len'.

(** [binary.BigEndian.PutUint64] and [PutUint32] *)
Definition be64_bytes (v : Z) : list byte :=
  map (fun k => of_Z (Z.shiftr v k)) [56; 48; 40; 32; 24; 16; 8; 0].

Definition be32_bytes (v : Z) : list byte :=
  map (fun k => of_Z (Z.shiftr v k)) [24; 16; 8; 0].

(** The padding [checkSum] writes: [tmp[:t+8]] with [tmp[0] = 0x80] and
    the length in bits in its last eight bytes. *)
Definition padlen (len : Z) : list byte :=
  let t := if len mod 64 <? 56 then 56 - len mod 64 else 64 + 56 - len mod 64 in
  (x80 :: repeat x00 (Z.to_nat (t - 1))) ++ be64_bytes (u64 (Z.shiftl len 3)).

Definition digest_bytes (H : regs) : list byte :=
  be32_bytes (r0 H) ++ be32_bytes (r1 H) ++ be32_bytes (r2 H) ++
  be32_bytes (r3 H) ++ be32_bytes (r4 H) ++ be32_bytes (r5 H) ++
  be32_bytes (r6 H) ++ be32_bytes (r7 H).

(** [func (d *digest) checkSum() [Size]byte]; it panics when bytes stay
    buffered after the padding, hence the [option]. *)
Definition checkSum (d : digest) : option (list byte) :=
  let d' := Write d (padlen (len d)) in
  if (length (x d') =? 0)%nat then Some (digest_bytes (h d')) else None.

(** [func Sum256(data []byte) [Size]byte]; [None] is the panic of
    [checkSum]. *)
Definition Sum256 (data : list byte) : option (list byte) :=
  checkSum (Write Reset data).

(** *** The hash as FIPS 180-4 defines it

    The message is padded first (5.1.1: a 1 bit, zero bits up to 448
    modulo 512, the bit length on 64 bits), parsed into 512-bit blocks
    (5.2.1), and the blocks are folded from the initial hash value with
    the compression function of 6.2.2, which is [block1]. *)
Definition reference_pad (M : list byte) : list byte :=
  let l := Z.of_nat (length M) in
  M ++ [x80] ++ repeat x00 (Z.to_nat ((55 - l) mod 64)) ++ be64_bytes (8 * l).

Fixpoint hash_blocks (n : nat) (H : regs) (M : list byte) : regs :=
  match n with
  | O => H
  | S n' => hash_blocks n' (block1 H M) (skipn 64 M)
  end.

Definition sha256_reference (M : list byte) : list byte :=
  let P := reference_pad M in
  digest_bytes (hash_blocks (length P / 64) init P).

End Sha256.

(* ===================================================================== *)
(** ** encoding/base64 *)
(* ===================================================================== *)

Module Base64.
Import GoBytes.
Local Open Scope Z_scope.

(** [type Encoding struct { encode [64]byte; padChar rune; ... }];
    [NoPadding] is [None]. *)
Record Encoding : Type := mkEncoding {
  encode : list byte;
  padChar : option byte
}.

Definition encodeStd : string :=
  "ABCDEFGHIJKLMNOPQRSTUVWXYZabcdefghijklmnopqrstuvwxyz0123456789+/".
Definition encodeURL : string :=
  "ABCDEFGHIJKLMNOPQRSTUVWXYZabcdefghijklmnopqrstuvwxyz0123456789-_".

Definition StdPadding : byte := "="%byte.
Definition NoPadding : option byte := None.

Definition NewEncoding (encoder : string) : Encoding :=
  {| encode := of_string encoder; padChar := Some StdPadding |}.

Definition WithPadding (enc : Encoding) (padding : option byte) : Encoding :=
  {| encode := encode enc; padChar := padding |}.

Definition URLEncoding : Encoding := NewEncoding encodeURL.
Definition RawURLEncoding : Encoding := WithPadding URLEncoding NoPadding.

(** [enc.encode[i]] *)
Definition enc_at (enc : Encoding) (i : Z) : byte :=
  nth (Z.to_nat i) (encode enc) x00.

Definition pad (enc : Encoding) (n : nat) : list byte :=
  match padChar enc with
  | Some c => repeat c n
  | None => []
  end.

(** [func (enc *Encoding) Encode(dst, src []byte)], as the bytes written
    to [dst]: full groups of three bytes first, then the remainder. *)
Fixpoint Encode (enc : Encoding) (src : list byte) : list byte :=
  match src with
  | [] => []
  | b0 :: b1 :: b2 :: rest =>
      let val := Z.lor (Z.lor (Z.shiftl (to_Z b0) 16) (Z.shiftl (to_Z b1) 8))
                       (to_Z b2) in
      enc_at enc (Z.land (Z.shiftr val 18) 0x3F)
      :: enc_at enc (Z.land (Z.shiftr val 12) 0x3F)
      :: enc_at enc (Z.land (Z.shiftr val 6) 0x3F)
      :: enc_at enc (Z.land val 0x3F)
      :: Encode enc rest
  | [b0] =>
      let val := Z.shiftl (to_Z b0) 16 in
      enc_at enc (Z.land (Z.shiftr val 18) 0x3F)
      :: enc_at enc (Z.land (Z.shiftr val 12) 0x3F)
      :: pad enc 2
  | [b0; b1] =>
      let val := Z.lor (Z.shiftl (to_Z b0) 16) (Z.shiftl (to_Z b1) 8) in
      enc_at enc (Z.land (Z.shiftr val 18) 0x3F)
      :: enc_at enc (Z.land (Z.shiftr val 12) 0x3F)
      :: enc_at enc (Z.land (Z.shiftr val 6) 0x3F)
      :: pad enc 1
  end.

(** [func (enc *Encoding) EncodeToString(src []byte) string] *)
Definition EncodeToString (enc : Encoding) (src : list byte) : string :=
  to_string (Encode enc src).

(** *** The encoding as RFC 4648 defines it

    The input is read as a stream of bits, most significant bit first,
    and cut into groups of six bits, the last one completed with zero
    bits; each group indexes the URL and filename safe alphabet (section
    5), and no padding character is added (section 3.2). *)
Definition bits_of_byte (b : byte) : list bool :=
  map (Z.testbit (to_Z b)) [7; 6; 5; 4; 3; 2; 1; 0].

Definition Z_of_bits (bs : list bool) : Z :=
  fold_left (fun acc (b : bool) => 2 * acc + (if b then 1 else 0)) bs 0.

Fixpoint sextets (bits : list bool) : list (list bool) :=
  match bits with
  | [] => []
  | a :: b :: c :: d :: e :: f :: rest => [a; b; c; d; e; f] :: sextets rest
  | [a] => [[a; false; false; false; false; false]]
  | [a; b] => [[a; b; false; false; false; false]]
  | [a; b; c] => [[a; b; c; false; false; false]]
  | [a; b; c; d] => [[a; b; c; d; false; false]]
  | [a; b; c; d; e] => [[a; b; c; d; e; false]]
  end.

Definition url_safe_alphabet : list byte := of_string encodeURL.

(** The character of a group of six bits. *)
Definition sextet_char (g : list bool) : byte :=
  nth (Z.to_nat (Z_of_bits g)) url_safe_alphabet x00.

Definition base64url_nopad_reference (src : list byte) : string :=
  to_string (map sextet_char (sextets (flat_map bits_of_byte src))).

(** The low six bits of [v], most significant first. *)
Definition low6 (v : Z) : list bool :=
  map (Z.testbit v) [5; 4; 3; 2; 1; 0].

End Base64.

(* ===================================================================== *)
(** ** The PKCE code challenge of [AuthCodeURL] *)
(* ===================================================================== *)

Module Pkce.
Import GoBytes.

(** [hashedCodeVerifier := sha256.Sum256(codeVerifier)] and
    [codeChallenge := base64.RawURLEncoding.EncodeToString(hashedCodeVerifier[:])];
    [None] when [Sum256] panics. *)
Definition codeChallenge (codeVerifier : list byte) : option string :=
  match Sha256.Sum256 codeVerifier with
  | Some hashedCodeVerifier =>
      Some (Base64.EncodeToString Base64.RawURLEncoding hashedCodeVerifier)
  | None => None
  end.

(** The challenge recomputed with the two reference definitions. *)
Definition reference_challenge (V : list byte) : string :=
  Base64.base64url_nopad_reference (Sha256.sha256_reference V).

End Pkce.


(* ===================================================================== *)
(** ** strings, net/url *)
(* ===================================================================== *)

Module Strings.
Local Open Scope string_scope.

(** [strings.Join(elems, sep)] *)
Fixpoint Join (elems : list string) (sep : string) : string :=
  match elems with
  | [] => ""
  | [a] => a
  | a :: rest => a ++ sep ++ Join rest sep
  end.

(** [strings.Split(s, sep)] for a separator [sep] of one byte: the
    pieces between the occurrences of [sep], one more than there are
    occurrences. *)
Fixpoint Split (s : string) (sep : ascii) : list string :=
  match s with
  | EmptyString => [""]
  | String a s' =>
      if Ascii.eqb a sep then "" :: Split s' sep
      else match Split s' sep with
           | piece :: pieces => String a piece :: pieces
           | [] => [String a ""]
           end
  end.

End Strings.

Module Url.
Local Open Scope string_scope.

(** [type Values map[string][]string] *)
Abbreviation Values := (gmap string (list string)).

(** [func (v Values) Set(key, value string)] *)
Definition Set_ (v : Values) (key value : string) : Values :=
  <[key := [value]]> v.

(** [func (v Values) Get(key string) string] *)
Definition Get (v : Values) (key : string) : string :=
  match v !! key with
  | Some (first :: _) => first
  | _ => ""
  end.

(** [func (v Values) Has(key string) bool] *)
Definition Has (v : Values) (key : string) : bool :=
  match v !! key with
  | Some _ => true
  | None => false
  end.

(** The [*url.URL] of an authorization request, as the text of the
    endpoint and the query values that follow it.  The text is
    [AuthURL + "?" + v.Encode()]; the percent-encoding of the values and
    the parsing of the text ([v.Encode], [url.Parse]) are not modelled,
    and the endpoint is read as a URL with no query of its own. *)
Record URL : Type := mkURL {
  Endpoint : string;
  Query : Values
}.

End Url.

(* ===================================================================== *)
(** ** Go values, errors and outcomes *)
(* ===================================================================== *)

Module Go.

(** A value of type [interface{}], by its dynamic type; a slice or a
    map is [AnyComposite]. *)
Inductive Any : Type :=
| AnyNil
| AnyString (s : string)
| AnyBool (b : bool)
| AnyInt64 (i : Z)
| AnyFloat64 (bits : Z)
| AnyComposite.

(** [v.(string)]: the unchecked type assertion; [None] is its panic. *)
Definition assert_string (v : Any) : option string :=
  match v with
  | AnyString s => Some s
  | _ => None
  end.

(** [*http.Response], by what an error report reads of it. *)
Record HTTPResponse : Type := mkHTTPResponse {
  StatusCode : Z;
  Status : string
}.

(** A non-nil [error]: an [*oauth2.RetrieveError], an error made by
    [fmt.Errorf] with the verb [%w] (its text up to the verb, and the
    error it wraps), or any other error value. *)
Inductive error : Type :=
| RetrieveError (Response : HTTPResponse) (Body : list byte)
| WrapError (prefix : string) (err : error)
| ErrorString (msg : string).

(** [errors.As(err, &rErr)] with [rErr] of type [*oauth2.RetrieveError]:
    the first error of that type on the chain of [err]. *)
Fixpoint As_RetrieveError (err : error) : option (HTTPResponse * list byte) :=
  match err with
  | RetrieveError r b => Some (r, b)
  | WrapError _ e => As_RetrieveError e
  | ErrorString _ => None
  end.

(** [errors.Unwrap] *)
Definition Unwrap (err : error) : option error :=
  match err with
  | WrapError _ e => Some e
  | _ => None
  end.

(** How a call ends: it returns, or it panics. *)
Inductive Outcome (A : Type) : Type :=
| Returns (a : A)
| Panics.
Arguments Returns {A} a.
Arguments Panics {A}.

(** [context.Context], an opaque handle. *)
Definition Context : Type := nat.

(** [time.Time], as an instant on the integer line. *)
Definition Instant : Type := Z.

End Go.

(* ===================================================================== *)
(** ** golang.org/x/oauth2 *)
(* ===================================================================== *)

Module OAuth2.
Import Go.
Local Open Scope string_scope.

Record Endpoint : Type := mkEndpoint {
  AuthURL : string;
  TokenURL : string
}.

Record Config : Type := mkConfig {
  ClientID : string;
  ClientSecret : string;
  endpoint : Endpoint;
  RedirectURL : string;
  Scopes : list string
}.

(** [type Token struct]; [raw] is the decoded token response, by what
    [Extra] reads of it. *)
Record Token : Type := mkToken {
  AccessToken : string;
  TokenType : string;
  RefreshToken : string;
  Expiry : Instant;
  raw : string -> Any
}.

(** [func (t *Token) Extra(key string) interface{}] *)
Definition Extra (t : Token) (key : string) : Any := raw t key.

(** [AuthCodeOption]: every option of the package is a [setParam]. *)
Record AuthCodeOption : Type := SetAuthURLParam {
  key : string;
  value : string
}.

Definition ApprovalForce : AuthCodeOption := SetAuthURLParam "prompt" "consent".

Definition setValue (opt : AuthCodeOption) (v : Url.Values) : Url.Values :=
  Url.Set_ v (key opt) (value opt).

Definition apply_opts (opts : list AuthCodeOption) (v : Url.Values) : Url.Values :=
  fold_left (fun m opt => setValue opt m) opts v.

(** The values [func (c *Config) AuthCodeURL(state string, opts ...AuthCodeOption)]
    encodes after the endpoint. *)
Definition AuthCodeURL_values (c : Config) (state : string)
    (opts : list AuthCodeOption) : Url.Values :=
  let v : Url.Values :=
    <["response_type" := ["code"]]> (<["client_id" := [ClientID c]]> ∅) in
  let v := if String.eqb (RedirectURL c) "" then v
           else Url.Set_ v "redirect_uri" (RedirectURL c) in
  let v := if (0 <? length (Scopes c))%nat
           then Url.Set_ v "scope" (Strings.Join (Scopes c) " ") else v in
  let v := if String.eqb state "" then v else Url.Set_ v "state" state in
  apply_opts opts v.

Definition AuthCodeURL (c : Config) (state : string)
    (opts : list AuthCodeOption) : Url.URL :=
  Url.mkURL (AuthURL (endpoint c)) (AuthCodeURL_values c state opts).

(** The form [func (c *Config) Exchange(ctx, code, opts...)] posts to
    the token endpoint. *)
Definition Exchange_values (c : Config) (code : string)
    (opts : list AuthCodeOption) : Url.Values :=
  let v : Url.Values :=
    <["grant_type" := ["authorization_code"]]> (<["code" := [code]]> ∅) in
  let v := if String.eqb (RedirectURL c) "" then v
           else Url.Set_ v "redirect_uri" (RedirectURL c) in
  apply_opts opts v.

End OAuth2.

(* ===================================================================== *)
(** ** Package fitbit: constants and the authorization file *)
(* ===================================================================== *)

Module Fitbit.
Import Go.
Local Open Scope string_scope.

Definition apiBaseURL : string := "https://api.fitbit.com".
Definition dateFormat : string := "2006-01-02".
Definition CodeChallengeMethod : string := "S256".
Definition NumberLetters : string := "0123456789".
Definition UppercaseAlphabetLetters : string := "ABCDEFGHIJKLMNOPQRSTUVWXYZ".
Definition LowercaseAlphabetLetters : string := "abcdefghijklmnopqrstuvwxyz".

(** The package variables [CSRFStateLength] and [CodeVerifierLength]
    ([uint64], 128 unless the caller assigns them). *)
Record Lengths : Type := mkLengths {
  CSRFStateLength : Z;
  CodeVerifierLength : Z
}.

Definition defaultLengths : Lengths := mkLengths 128 128.

(** [type Token struct] *)
Record Token : Type := mkToken {
  AccessToken : string;
  TokenType : string;
  RefreshToken : string;
  Expiry : Instant
}.

(** [func (t *Token) asOAuth2Token() *oauth2.Token]; the fields the
    literal leaves out are zero, so [Extra] finds nothing. *)
Definition asOAuth2Token (t : option Token) : option OAuth2.Token :=
  match t with
  | None => None
  | Some t =>
      Some (OAuth2.mkToken (AccessToken t) (TokenType t) (RefreshToken t)
                           (Expiry t) (fun _ => AnyNil))
  end.

(** Modelled from the spec: the application types, whose declaration is
    not in src: the confidential server type, which [Link] tests for, and
    the other (public) types. *)
Inductive ApplicationType : Type :=
| ServerApplication
| PublicApplication (kind : nat).

Definition is_ServerApplication (t : ApplicationType) : bool :=
  match t with
  | ServerApplication => true
  | PublicApplication _ => false
  end.

(** Modelled from the spec: [Scope] and [newScope] are not in src; a
    scope is the set of the granted permission names, and membership is
    all that is asked of it. *)
Definition Scope : Type := gset string.
Definition newScope (names : list string) : Scope := list_to_set names.

(** A request to the token endpoint: the arguments of [retrieveToken]
    (the refresh), or the configuration and form of oauth2's
    [Config.Exchange]. *)
Inductive TokenRequest : Type :=
| RetrieveTokenCall (ctx : Context) (clientID clientSecret tokenURL : string)
    (values : Url.Values) (applicationType : ApplicationType)
| ExchangeCall (ctx : Context) (config : OAuth2.Config) (values : Url.Values).

(** What the three operations call and do not define: the provider
    behind the token endpoint, the secure random source, and the
    package's [parseError], each a function of the state [Env] of the
    world outside the program. *)
Class Externals : Type := {
  Env : Type;
  (** the answer to [retrieveToken]'s request: a token and an error,
      either of which may be nil *)
  refreshReply : TokenRequest -> Env -> (option Token * option error) * Env;
  (** the answer to [Config.Exchange]'s request: an error, or a token *)
  exchangeReply : TokenRequest -> Env -> (error + OAuth2.Token) * Env;
  (** [randomBytes(length)] *)
  randomBytes : Z -> Env -> list byte * Env;
  (** [parseError(response, body)]; [None] is nil *)
  parseError : HTTPResponse -> list byte -> option error
}.

Section Operations.
Context {ext : Externals}.

(** The world: its own state and the token-endpoint requests made so
    far, oldest first. *)
Record World : Type := mkWorld {
  env : Env;
  requests : list TokenRequest
}.

(** [func(oldToken, newToken *Token) error], the caller's hook; it
    acts on the world's own state. *)
Definition UpdateTokenFunc : Type :=
  option Token -> option Token -> Env -> option error * Env.

(** [type Client struct], by the fields the three operations read;
    a nil [updateTokenFunc] is [None]. *)
Record Client : Type := mkClient {
  oauth2Config : OAuth2.Config;
  applicationType : ApplicationType;
  debugMode : bool;
  updateTokenFunc : option UpdateTokenFunc
}.

Record tokenRefresher : Type := mkTokenRefresher {
  ctx : Context;
  client : Client;
  lastToken : option Token
}.

Record LinkResponse : Type := mkLinkResponse {
  UserID : string;
  scope : Scope;
  token : Token
}.

(** [retrieveToken(ctx, clientID, clientSecret, tokenURL, values,
    applicationType)], the package's request to the token endpoint.  Its
    body is not in src: what it returns is the parameter [refreshReply],
    and each call of it is recorded as one request. *)
Definition retrieveToken (ctx : Context) (clientID clientSecret tokenURL : string)
    (values : Url.Values) (applicationType : ApplicationType) (w : World)
    : (option Token * option error) * World :=
  let req := RetrieveTokenCall ctx clientID clientSecret tokenURL values
                               applicationType in
  let '(r, e) := refreshReply req (env w) in
  (r, mkWorld e (requests w ++ [req])).

(** [func (c *Config) Exchange(ctx, code, opts...)] of
    oauth2: one request to the token endpoint with the form
    [Exchange_values]. *)
Definition Exchange (c : OAuth2.Config) (ctx : Context) (code : string)
    (opts : list OAuth2.AuthCodeOption) (w : World)
    : (error + OAuth2.Token) * World :=
  let req := ExchangeCall ctx c (OAuth2.Exchange_values c code opts) in
  let '(r, e) := exchangeReply req (env w) in
  (r, mkWorld e (requests w ++ [req])).

(** The form of [tokenRefresher.Token]'s request. *)
Definition refresh_values (last : Token) : Url.Values :=
  <["grant_type" := ["refresh_token"]]>
    (<["refresh_token" := [RefreshToken last]]> ∅).

(** The one request a call of [Token] makes when [lastToken] is [last]. *)
Definition refresh_request (tkr : tokenRefresher) (last : Token) : TokenRequest :=
  RetrieveTokenCall (ctx tkr)
    (OAuth2.ClientID (oauth2Config (client tkr)))
    (OAuth2.ClientSecret (oauth2Config (client tkr)))
    (OAuth2.TokenURL (OAuth2.endpoint (oauth2Config (client tkr))))
    (refresh_values last)
    (applicationType (client tkr)).

(** [func (tkr *tokenRefresher) Token()]: the
    result, the refresher after the call and the world after it.
    Reading [tkr.lastToken.RefreshToken] panics on a nil [lastToken]. *)
Definition tokenRefresher_Token (tkr : tokenRefresher) (w : World)
    : Outcome (option OAuth2.Token * option error) * tokenRefresher * World :=
  match lastToken tkr with
  | None => (Panics, tkr, w)
  | Some last =>
      let c := client tkr in
      let '((token, err), w1) :=
        retrieveToken (ctx tkr)
          (OAuth2.ClientID (oauth2Config c))
          (OAuth2.ClientSecret (oauth2Config c))
          (OAuth2.TokenURL (OAuth2.endpoint (oauth2Config c)))
          (refresh_values last)
          (applicationType c) w in
      match err with
      | Some e => (Returns (None, Some e), tkr, w1)
      | None =>
          match updateTokenFunc c with
          | Some f =>
              let '(herr, e2) := f (lastToken tkr) token (env w1) in
              let w2 := mkWorld e2 (requests w1) in
              match herr with
              | Some e => (Returns (None, Some e), tkr, w2)
              | None =>
                  (Returns (asOAuth2Token token, None),
                   mkTokenRefresher (ctx tkr) (client tkr) token, w2)
              end
          | None =>
              (Returns (asOAuth2Token token, None),
               mkTokenRefresher (ctx tkr) (client tkr) token, w1)
          end
      end
  end.

(** The options [AuthCodeURL] passes to oauth2. *)
Definition authCodeOpts (c : Client) (codeChallenge redirectURI : string)
    : list OAuth2.AuthCodeOption :=
  let opts :=
    [ OAuth2.SetAuthURLParam "code_challenge" codeChallenge;
      OAuth2.SetAuthURLParam "code_challenge_method" CodeChallengeMethod;
      OAuth2.SetAuthURLParam "redirect_uri" redirectURI ] in
  if debugMode c then opts ++ [OAuth2.ApprovalForce] else opts.

(** [func (c *Client) AuthCodeURL(redirectURI string)]: the URL, the
    state and the code verifier. *)
Definition AuthCodeURL (g : Lengths) (c : Client) (redirectURI : string)
    (w : World) : Outcome (Url.URL * string * string) * World :=
  let '(stateBytes, e1) := randomBytes (CSRFStateLength g) (env w) in
  let state := GoBytes.to_string stateBytes in
  let '(codeVerifier, e2) := randomBytes (CodeVerifierLength g) e1 in
  let w2 := mkWorld e2 (requests w) in
  match Pkce.codeChallenge codeVerifier with
  | None => (Panics, w2)
  | Some codeChallenge =>
      let opts := authCodeOpts c codeChallenge redirectURI in
      let authCodeURL := OAuth2.AuthCodeURL (oauth2Config c) state opts in
      (Returns (authCodeURL, state, GoBytes.to_string codeVerifier), w2)
  end.

(** What a call of [AuthCodeURL] draws from the random source: the state
    first, the code verifier next. *)
Definition drawn_state (g : Lengths) (w : World) : string :=
  GoBytes.to_string (fst (randomBytes (CSRFStateLength g) (env w))).

Definition drawn_verifier (g : Lengths) (w : World) : list byte :=
  fst (randomBytes (CodeVerifierLength g)
         (snd (randomBytes (CSRFStateLength g) (env w)))).

(** The options [Link] passes to [Exchange]. *)
Definition linkOpts (c : Client) (codeVerifier reqURIString : string)
    : list OAuth2.AuthCodeOption :=
  let opts :=
    [ OAuth2.SetAuthURLParam "code_verifier" codeVerifier;
      OAuth2.SetAuthURLParam "redirect_uri" reqURIString ] in
  if is_ServerApplication (applicationType c)
  then opts ++ [OAuth2.SetAuthURLParam "client_id"
                  (OAuth2.ClientID (oauth2Config c))]
  else opts.

(** The one request a call of [Link] makes. *)
Definition link_request (c : Client) (ctx : Context)
    (code codeVerifier reqURIString : string) : TokenRequest :=
  ExchangeCall ctx (oauth2Config c)
    (OAuth2.Exchange_values (oauth2Config c) code
       (linkOpts c codeVerifier reqURIString)).

Definition cannotFetchToken : string := "fitbit(oauth2): cannot fetch token: ".

(** [func (c *Client) Link(ctx, code, codeVerifier, reqURIString string)]:
    the response and the error, either nil ([None]), or the panic of a
    type assertion. *)
Definition Link (c : Client) (ctx : Context)
    (code codeVerifier reqURIString : string) (w : World)
    : Outcome (option LinkResponse * option error) * World :=
  let opts := linkOpts c codeVerifier reqURIString in
  let '(r, w1) := Exchange (oauth2Config c) ctx code opts w in
  match r with
  | inl err =>
      match As_RetrieveError err with
      | Some (response, body) =>
          match parseError response body with
          | Some e => (Returns (None, Some (WrapError cannotFetchToken e)), w1)
          | None => (Returns (None, Some (WrapError cannotFetchToken err)), w1)
          end
      | None => (Returns (None, Some (WrapError cannotFetchToken err)), w1)
      end
  | inr token =>
      match assert_string (OAuth2.Extra token "user_id") with
      | None => (Panics, w1)
      | Some userID =>
          match assert_string (OAuth2.Extra token "scope") with
          | None => (Panics, w1)
          | Some scopeString =>
              (Returns
                 (Some (mkLinkResponse userID
                          (newScope (Strings.Split scopeString " "))
                          (mkToken (OAuth2.AccessToken token)
                                   (OAuth2.TokenType token)
                                   (OAuth2.RefreshToken token)
                                   (OAuth2.Expiry token))),
                  None), w1)
          end
      end
  end.

End Operations.

End Fitbit.

(* ===================================================================== *)
(** ** A stub provider, for the scenarios *)
(* ===================================================================== *)

Module Scenario.
Import Go Fitbit.
Local Open Scope string_scope.

(** The token response of the exchange scenario: [user_id] and [scope]
    are strings, nothing else is there. *)
Definition exchanged : OAuth2.Token :=
  OAuth2.mkToken "AT1" "Bearer" "RT1" 3600%Z
    (fun k => if String.eqb k "user_id" then AnyString "U1"
              else if String.eqb k "scope" then AnyString "activity heartrate"
              else AnyNil).

(** A token response without a [user_id]. *)
Definition anonymous : OAuth2.Token :=
  OAuth2.mkToken "AT1" "Bearer" "RT1" 3600%Z
    (fun k => if String.eqb k "scope" then AnyString "activity" else AnyNil).

Definition refreshed : Token := mkToken "AT2" "Bearer" "RT2" 7200%Z.
Definition issued : Token := mkToken "AT1" "Bearer" "RT1" 3600%Z.

Definition badRequest : HTTPResponse := mkHTTPResponse 400 "400 Bad Request".
Definition invalidGrant : error := ErrorString "invalid_grant".
Definition timeout : error := ErrorString "dial tcp: i/o timeout".

(** The world's state counts the calls it served.  The code [abc123] is
    exchanged for [exchanged], the code [nouser] for [anonymous], the code
    [used] is refused with status 400, and any other exchange times out;
    every refresh is granted. *)
Definition stub : Externals := {|
  Env := nat;
  refreshReply := fun _ n => ((Some refreshed, None), S n);
  exchangeReply := fun req n =>
    match req with
    | ExchangeCall _ _ v =>
        if String.eqb (Url.Get v "code") "abc123" then (inr exchanged, S n)
        else if String.eqb (Url.Get v "code") "nouser" then (inr anonymous, S n)
        else if String.eqb (Url.Get v "code") "used"
             then (inl (RetrieveError badRequest []), S n)
             else (inl timeout, S n)
    | RetrieveTokenCall _ _ _ _ _ _ => (inl timeout, S n)
    end;
  randomBytes := fun len n => (repeat "a"%byte (Z.to_nat len), S n);
  parseError := fun resp _ =>
    if (StatusCode resp =? 400)%Z then Some invalidGrant else None
|}.

Definition config : OAuth2.Config :=
  OAuth2.mkConfig "22ABCD" "secret"
    (OAuth2.mkEndpoint "https://www.fitbit.com/oauth2/authorize"
                       "https://api.fitbit.com/oauth2/token")
    "" ["activity"; "heartrate"].

Definition failingHook : UpdateTokenFunc (ext := stub) :=
  fun _ _ n => (Some (ErrorString "store unavailable"), n).

Definition savingHook : UpdateTokenFunc (ext := stub) :=
  fun _ _ n => (None, S n).

Definition serverClient (hook : option (UpdateTokenFunc (ext := stub)))
    : Client (ext := stub) :=
  mkClient config ServerApplication false hook.

Definition publicClient : Client (ext := stub) :=
  mkClient config (PublicApplication 0) true None.

Definition refresher (hook : option (UpdateTokenFunc (ext := stub)))
    : tokenRefresher (ext := stub) :=
  mkTokenRefresher 0 (serverClient hook) (Some issued).

Definition start : World (ext := stub) := mkWorld (ext := stub) 0 [].

End Scenario.

(* ===================================================================== *)
(** ** Steps and variants of the operations, and a provider that fails *)
(* ===================================================================== *)

Module Steps.
Import Go Fitbit.
Local Open Scope string_scope.

Section Variants.
Context {ext : Externals}.

(** Lines 66-70 of [Token]: the hook, when there is one, is called with
    the old and the new token; its error and the state it leaves. *)
Definition hook_step (c : Client) (old new : option Token) (e : Env)
    : option error * Env :=
  match updateTokenFunc c with
  | Some f => f old new e
  | None => (None, e)
  end.

(** The client [c] with another debug flag, hook, or oauth2 redirect URL. *)
Definition with_debugMode (c : Client) (b : bool) : Client :=
  mkClient (oauth2Config c) (applicationType c) b (updateTokenFunc c).

Definition with_hook (c : Client) (hook : option UpdateTokenFunc) : Client :=
  mkClient (oauth2Config c) (applicationType c) (debugMode c) hook.


End Variants.

(** The byte of eight bits, most significant first. *)
Definition byte_of_bits (bits : list bool) : byte :=
  GoBytes.of_Z (Base64.Z_of_bits bits).

End Steps.

Module Outage.
Import Go Fitbit.
Local Open Scope string_scope.

(** A provider whose first refresh times out, whose second answers with
    neither a token nor an error, and which grants the next ones; every
    exchange times out. *)
Definition stub : Externals := {|
  Env := nat;
  refreshReply := fun _ n =>
    match n with
    | 0 => ((None, Some Scenario.timeout), 1)
    | 1 => ((None, None), 2)
    | S (S _) => ((Some Scenario.refreshed, None), S n)
    end;
  exchangeReply := fun _ n => (inl Scenario.timeout, S n);
  randomBytes := fun len n => (repeat "a"%byte (Z.to_nat len), S n);
  parseError := fun _ _ => None
|}.

Definition countingHook : UpdateTokenFunc (ext := stub) :=
  fun _ _ n => (None, n + 100).

Definition refresher (hook : option (UpdateTokenFunc (ext := stub)))
    : tokenRefresher (ext := stub) :=
  mkTokenRefresher 0
    (mkClient Scenario.config ServerApplication false hook)
    (Some Scenario.issued).

Definition world (n : nat) : World (ext := stub) := mkWorld (ext := stub) n [].

End Outage.

(* ===================================================================== *)
(** * Properties *)
(* ===================================================================== *)

(** ** The locale table *)

Lemma units_pairwise_distinct :
  Localization.UnitedStatesUnit <> Localization.UnitedKingdomUnit /\
  Localization.UnitedStatesUnit <> Localization.MetricUnit /\
  Localization.UnitedKingdomUnit <> Localization.MetricUnit.
Proof. repeat split; discriminate. Qed.

(** C10: for every locale, [getCorrespondingUnit] returns a non-nil unit:
    [UnitedStatesUnit] exactly for [en_US], [UnitedKingdomUnit] exactly for
    [en_GB], and [MetricUnit] exactly for every other value, whether or not
    it is one of the eight declared locales. *)
Theorem getCorrespondingUnit_by_locale (locale : Localization.Locale) :
  Localization.getCorrespondingUnit locale <> None /\
  (Localization.getCorrespondingUnit locale = Some Localization.UnitedStatesUnit
     <-> locale = "en_US"%string) /\
  (Localization.getCorrespondingUnit locale = Some Localization.UnitedKingdomUnit
     <-> locale = "en_GB"%string) /\
  (Localization.getCorrespondingUnit locale = Some Localization.MetricUnit
     <-> locale <> "en_US"%string /\ locale <> "en_GB"%string).
Proof.
  unfold Localization.getCorrespondingUnit, Localization.LocaleUnitedStates,
    Localization.LocaleUnitedKingdom.
  destruct (String.eqb_spec locale "en_US") as [Hus | Hus].
  - subst locale. repeat split; try discriminate; try reflexivity.
    intros [Hne _]. now elim Hne.
  - destruct (String.eqb_spec locale "en_GB") as [Huk | Huk].
    + subst locale. repeat split; try discriminate; try reflexivity.
      intros [_ Hne]. now elim Hne.
    + repeat split; try discriminate; try assumption;
        intros Heq; contradiction.
Qed.

Example declared_locales_units :
  map Localization.getCorrespondingUnit
    [ Localization.LocaleAustralia; Localization.LocaleFrance;
      Localization.LocaleGermany; Localization.LocaleJapan;
      Localization.LocaleNewZealand; Localization.LocaleSpain;
      Localization.LocaleUnitedKingdom; Localization.LocaleUnitedStates ] =
  [ Some Localization.MetricUnit; Some Localization.MetricUnit;
    Some Localization.MetricUnit; Some Localization.MetricUnit;
    Some Localization.MetricUnit; Some Localization.MetricUnit;
    Some Localization.UnitedKingdomUnit; Some Localization.UnitedStatesUnit ].
Proof. reflexivity. Qed.

(** ** SHA-256: the streaming digest computes the hash of FIPS 180-4 *)

Section Sha256Facts.
Import GoBytes Sha256.

Lemma at_app_l (a b : list byte) (j : nat) :
  j < length a -> at_ (a ++ b) j = at_ a j.
Proof. intros Hj. unfold at_. now rewrite app_nth1. Qed.

Lemma schedule_app (a b : list byte) :
  64 <= length a -> schedule (a ++ b) = schedule a.
Proof.
  intros Ha. unfold schedule. f_equal. apply map_ext_in.
  intros i Hi. apply in_seq in Hi. unfold be32.
  rewrite !at_app_l by lia. reflexivity.
Qed.

Lemma block1_app (H : regs) (a b : list byte) :
  64 <= length a -> block1 H (a ++ b) = block1 H a.
Proof. intros Ha. unfold block1. now rewrite schedule_app. Qed.

Local Opaque block1.

Lemma hash_blocks_app (n : nat) :
  forall (H : regs) (a b : list byte),
    64 * n <= length a -> hash_blocks n H (a ++ b) = hash_blocks n H a.
Proof.
  induction n as [| n IH]; intros H a b Ha; cbn [hash_blocks]; [reflexivity |].
  rewrite block1_app by lia.
  rewrite skipn_app. replace (64 - length a) with 0 by lia.
  change (skipn 0 b) with b.
  apply IH. rewrite length_skipn. lia.
Qed.

Lemma hash_blocks_add (n m : nat) :
  forall (H : regs) (p : list byte),
    hash_blocks (n + m) H p = hash_blocks m (hash_blocks n H p) (skipn (64 * n) p).
Proof.
  induction n as [| n IH]; intros H p.
  - reflexivity.
  - cbn [hash_blocks Nat.add]. rewrite IH. f_equal.
    rewrite skipn_skipn. f_equal. lia.
Qed.

Lemma div64_step (n : nat) : 64 <= n -> n / 64 = S ((n - 64) / 64).
Proof.
  intros Hn. replace n with ((n - 64) + 1 * 64) at 1 by lia.
  rewrite Nat.div_add by discriminate. lia.
Qed.

Lemma blockLoop_hash_blocks (fuel : nat) :
  forall (H : regs) (p : list byte),
    length p / 64 <= fuel ->
    blockLoop fuel H p = hash_blocks (length p / 64) H p.
Proof.
  induction fuel as [| fuel IH]; intros H p Hfuel; cbn [blockLoop].
  - replace (length p / 64) with 0 by lia. reflexivity.
  - destruct (64 <=? length p) eqn:Hlen.
    + apply Nat.leb_le in Hlen. rewrite (div64_step (length p)) by exact Hlen.
      cbn [hash_blocks]. rewrite IH by (rewrite length_skipn; rewrite (div64_step (length p)) in Hfuel by exact Hlen; lia).
      now rewrite length_skipn.
    + apply Nat.leb_gt in Hlen. rewrite Nat.div_small by exact Hlen. reflexivity.
Qed.

Lemma blockGeneric_hash_blocks (H : regs) (p : list byte) :
  blockGeneric H p = hash_blocks (length p / 64) H p.
Proof.
  unfold blockGeneric. apply blockLoop_hash_blocks.
  apply Nat.Div0.div_le_upper_bound. lia.
Qed.

Lemma hash_blocks_firstn (H : regs) (p : list byte) :
  blockGeneric H (firstn (length p / 64 * 64) p) = hash_blocks (length p / 64) H p.
Proof.
  rewrite blockGeneric_hash_blocks.
  pose proof (Nat.Div0.mul_div_le (length p) 64) as Hle.
  assert (Hn : length (firstn (length p / 64 * 64) p) = length p / 64 * 64)
    by (rewrite length_firstn; apply Nat.min_l; lia).
  rewrite Hn, Nat.div_mul by discriminate.
  rewrite <- (hash_blocks_app _ H _ (skipn (length p / 64 * 64) p)) by lia.
  now rewrite firstn_skipn.
Qed.

Lemma buffer_rest (p : list byte) :
  (if 0 <? length p then p else []) = p.
Proof. now destruct p. Qed.

(** [Write] with fewer than 64 bytes buffered: all the full blocks of
    the buffer followed by [p] are hashed, and the rest stays buffered. *)
Lemma Write_spec (d : digest) (p : list byte) :
  length (x d) < 64 ->
  Write d p =
    mkDigest (hash_blocks ((length (x d) + length p) / 64) (h d) (x d ++ p))
             (skipn ((length (x d) + length p) / 64 * 64) (x d ++ p))
             (u64 (len d + Z.of_nat (length p))).
Proof.
  intros Hx. unfold Write.
  destruct (0 <? length (x d)) eqn:Hnx.
  - apply Nat.ltb_lt in Hnx.
    set (n := Nat.min (64 - length (x d)) (length p)).
    destruct (length (x d ++ firstn n p) =? 64) eqn:Hfull.
    + apply Nat.eqb_eq in Hfull.
      assert (Hn : n = 64 - length (x d))
        by (rewrite length_app, length_firstn in Hfull; lia).
      assert (Hp : 64 - length (x d) <= length p) by lia.
      rewrite (blockGeneric_hash_blocks (h d) (x d ++ firstn n p)), Hfull.
      change (64 / 64) with 1.
      assert (Hsplit : x d ++ p = (x d ++ firstn n p) ++ skipn n p)
        by (now rewrite <- app_assoc, firstn_skipn).
      assert (Hq : (length (x d) + length p) / 64 = 1 + length (skipn n p) / 64).
      { rewrite length_skipn.
        replace (length (x d) + length p) with ((length p - n) + 1 * 64) by lia.
        rewrite Nat.div_add by discriminate. lia. }
      assert (Hskip : forall k, skipn (64 + k) (x d ++ p) = skipn k (skipn n p)).
      { intros k. rewrite Hsplit. replace (64 + k) with (k + 64) by lia.
        rewrite <- skipn_skipn. f_equal.
        rewrite skipn_app, Hfull, Nat.sub_diag. cbn [skipn].
        rewrite skipn_all2 by lia. reflexivity. }
      destruct (64 <=? length (skipn n p)) eqn:Hmore.
      * rewrite hash_blocks_firstn, buffer_rest.
        f_equal.
        -- rewrite Hq, hash_blocks_add. cbn [hash_blocks].
           rewrite Hsplit at 1.
           rewrite (block1_app (h d) (x d ++ firstn n p) (skipn n p)) by lia.
           change (64 * 1) with (64 + 0). now rewrite Hskip.
        -- rewrite Hq.
           replace ((1 + length (skipn n p) / 64) * 64)
             with (64 + length (skipn n p) / 64 * 64) by lia.
           now rewrite Hskip.
      * apply Nat.leb_gt in Hmore.
        assert (Hz : length (skipn n p) / 64 = 0) by (now apply Nat.div_small).
        rewrite Hq, Hz. cbn [Nat.add Nat.mul hash_blocks].
        rewrite Hsplit at 1.
           rewrite (block1_app (h d) (x d ++ firstn n p) (skipn n p)) by lia.
        change (skipn 64 (x d ++ p)) with (skipn (64 + 0) (x d ++ p)).
        rewrite Hskip. cbn [skipn].
        now rewrite buffer_rest.
    + apply Nat.eqb_neq in Hfull.
      assert (Hn : n = length p)
        by (rewrite length_app, length_firstn in Hfull; lia).
      rewrite Hn, firstn_all, skipn_all. cbn [length Nat.leb Nat.ltb].
      assert (Hq : (length (x d) + length p) / 64 = 0).
      { apply Nat.div_small.
        rewrite length_app, length_firstn in Hfull. lia. }
      rewrite Hq. reflexivity.
  - apply Nat.ltb_ge in Hnx.
    assert (Hnil : x d = []) by (destruct (x d); [reflexivity | cbn in Hnx; lia]).
    rewrite Hnil. cbn [length Nat.add app].
    destruct (64 <=? length p) eqn:Hmore.
    + now rewrite hash_blocks_firstn, buffer_rest.
    + apply Nat.leb_gt in Hmore.
      rewrite Nat.div_small by exact Hmore.
      cbn [Nat.mul skipn hash_blocks]. now rewrite buffer_rest.
Qed.

Local Open Scope Z_scope.

Lemma of_Z_shiftr_u64 (v k : Z) :
  0 <= k <= 56 -> of_Z (Z.shiftr (u64 v) k) = of_Z (Z.shiftr v k).
Proof.
  intros Hk. unfold of_Z, u64.
  replace (Z.shiftr (v mod 18446744073709551616) k mod 256)
    with (Z.shiftr v k mod 256); [reflexivity |].
  change 256 with (2 ^ 8). change 18446744073709551616 with (2 ^ 64).
  apply Z.bits_inj'. intros i Hi.
  destruct (Z.ltb_spec i 8) as [Hlt | Hge].
  - rewrite !Z.mod_pow2_bits_low, !Z.shiftr_spec by lia.
    now rewrite Z.mod_pow2_bits_low by lia.
  - now rewrite !Z.mod_pow2_bits_high by lia.
Qed.

Lemma be64_bytes_u64 (v : Z) : be64_bytes (u64 v) = be64_bytes v.
Proof.
  unfold be64_bytes. cbn [map].
  now rewrite !of_Z_shiftr_u64 by lia.
Qed.

Lemma padlen_reference (n : nat) :
  padlen (u64 (Z.of_nat n)) =
    [x80] ++ repeat x00 (Z.to_nat ((55 - Z.of_nat n) mod 64))
          ++ be64_bytes (8 * Z.of_nat n).
Proof.
  unfold padlen.
  assert (Hmod : u64 (Z.of_nat n) mod 64 = Z.of_nat n mod 64).
  { unfold u64.
    change 18446744073709551616 with (64 * 288230376151711744).
    rewrite Z.rem_mul_r by lia. rewrite Z.mul_comm, Z.mod_add by lia.
    apply Z.mod_mod. lia. }
  rewrite Hmod.
  assert (Hbits : be64_bytes (u64 (Z.shiftl (u64 (Z.of_nat n)) 3)) =
                  be64_bytes (8 * Z.of_nat n)).
  { rewrite Z.shiftl_mul_pow2 by lia. change (2 ^ 3) with 8.
    rewrite <- (be64_bytes_u64 (8 * Z.of_nat n)). f_equal.
    unfold u64. rewrite Z.mul_mod_idemp_l by lia. f_equal. lia. }
  rewrite Hbits. cbn [app]. f_equal. f_equal. f_equal. f_equal.
  destruct (Z.ltb_spec (Z.of_nat n mod 64) 56);
    Z.div_mod_to_equations; lia.
Qed.

Lemma padlen_length (n : nat) :
  ((n + length (padlen (u64 (Z.of_nat n)))) mod 64 = 0)%nat.
Proof.
  rewrite padlen_reference, !length_app, repeat_length.
  cbn [length be64_bytes map].
  apply Nat2Z.inj. rewrite Nat2Z.inj_mod. 
  rewrite !Nat2Z.inj_add, Z2Nat.id by (apply Z.mod_pos_bound; lia).
  change (Z.of_nat 64) with 64. change (Z.of_nat 0) with 0.
  change (Z.of_nat 1) with 1. change (Z.of_nat 8) with 8.
  Z.div_mod_to_equations. lia.
Qed.

(** [Sum256] never panics and returns the hash of FIPS 180-4. *)
Lemma Sum256_reference (data : list byte) :
  Sum256 data = Some (sha256_reference data).
Proof.
  unfold Sum256, checkSum.
  set (n := length data).
  assert (Hfirst : Write Reset data =
            mkDigest (hash_blocks (n / 64) init data)
                     (skipn (n / 64 * 64) data) (u64 (Z.of_nat n))).
  { rewrite Write_spec by (cbn; lia). reflexivity. }
  rewrite Hfirst. cbn [len].
  set (pad := padlen (u64 (Z.of_nat n))).
  pose proof (Nat.Div0.mul_div_le n 64) as Hq.
  assert (Hrest : length (skipn (n / 64 * 64) data) = (n - n / 64 * 64)%nat)
    by apply length_skipn.
  pose proof (Nat.div_mod_eq n 64) as Hdm.
  pose proof (Nat.mod_upper_bound n 64) as Hr.
  rewrite Write_spec by (cbn [x]; rewrite Hrest; lia).
  cbn [x h len].
  set (total := (length (skipn (n / 64 * 64) data) + length pad)%nat).
  pose proof (padlen_length n) as Hpad. fold pad in Hpad.
  assert (Hk : exists k, total = (k * 64)%nat).
  { exists ((n + length pad) / 64 - n / 64)%nat. unfold total. rewrite Hrest.
    pose proof (Nat.div_mod_eq (n + length pad) 64) as Hdm'.
    rewrite Hpad in Hdm'. lia. }
  destruct Hk as [k Hk].
  assert (Htotal : (total / 64 * 64 = total)%nat)
    by (rewrite Hk, Nat.div_mul by discriminate; reflexivity).
  rewrite Htotal, skipn_all2 by (rewrite length_app; unfold total; lia).
  cbn [length Nat.eqb]. f_equal.
  unfold sha256_reference, reference_pad. fold n.
  rewrite <- (padlen_reference n). fold pad. f_equal.
  assert (Hlen : (length (data ++ pad) / 64 = n / 64 + total / 64)%nat).
  { rewrite length_app. fold n.
    replace (n + length pad)%nat with (total + n / 64 * 64)%nat
      by (unfold total; rewrite Hrest; lia).
    rewrite Nat.div_add by discriminate. lia. }
  rewrite Hlen, hash_blocks_add.
  rewrite (hash_blocks_app (n / 64) init data pad) by (fold n; lia).
  rewrite skipn_app. fold n.
  replace (64 * (n / 64) - n)%nat with 0%nat by lia.
  replace (64 * (n / 64))%nat with (n / 64 * 64)%nat by lia.
  reflexivity.
Qed.

Lemma digest_bytes_length (H : regs) : length (digest_bytes H) = 32%nat.
Proof. reflexivity. Qed.

Lemma sha256_reference_length (M : list byte) :
  length (sha256_reference M) = 32%nat.
Proof. apply digest_bytes_length. Qed.

End Sha256Facts.

(** The test vectors of FIPS 180-2, appendix B.1 and B.2. *)
Example sha256_reference_two_blocks :
  map GoBytes.to_Z
    (Sha256.sha256_reference
       (GoBytes.of_string "abcdbcdecdefdefgefghfghighijhijkijkljklmklmnlmnomnopnopq")) =
  [ 0x24; 0x8d; 0x6a; 0x61; 0xd2; 0x06; 0x38; 0xb8; 0xe5; 0xc0; 0x26; 0x93;
    0x0c; 0x3e; 0x60; 0x39; 0xa3; 0x3c; 0xe4; 0x59; 0x64; 0xff; 0x21; 0x67;
    0xf6; 0xec; 0xed; 0xd4; 0x19; 0xdb; 0x06; 0xc1 ]%Z.
Proof. vm_compute. reflexivity. Qed.

Example Sum256_abc :
  option_map (map GoBytes.to_Z) (Sha256.Sum256 (GoBytes.of_string "abc")) =
  Some [ 0xba; 0x78; 0x16; 0xbf; 0x8f; 0x01; 0xcf; 0xea; 0x41; 0x41; 0x40;
         0xde; 0x5d; 0xae; 0x22; 0x23; 0xb0; 0x03; 0x61; 0xa3; 0x96; 0x17;
         0x7a; 0x9c; 0xb4; 0x10; 0xff; 0x61; 0xf2; 0x00; 0x15; 0xad ]%Z.
Proof. vm_compute. reflexivity. Qed.

(** ** Base64: [Encode] with [RawURLEncoding] is the encoding of RFC 4648 *)

Section Base64Facts.
Import GoBytes Base64.
Local Open Scope Z_scope.

Lemma to_Z_range (b : byte) : 0 <= to_Z b < 256.
Proof. unfold to_Z. pose proof (Byte.to_N_bounded b). lia. Qed.

Lemma to_Z_testbit_high (b : byte) (i : Z) :
  8 <= i -> Z.testbit (to_Z b) i = false.
Proof.
  intros Hi. rewrite <- (Z.mod_small (to_Z b) (2 ^ 8)) by apply to_Z_range.
  apply Z.mod_pow2_bits_high. lia.
Qed.

Lemma land63_bits (v : Z) : Z.land v 0x3F = Z_of_bits (low6 v).
Proof.
  change 0x3F with (Z.ones 6). rewrite Z.land_ones by lia.
  unfold Z_of_bits, low6. cbn [map fold_left].
  repeat match goal with
         | |- context [if Z.testbit v ?i then 1 else 0] =>
             change (if Z.testbit v i then 1 else 0) with (Z.b2z (Z.testbit v i));
             rewrite (Z.testbit_spec' v i) by lia
         end.
  change (2 ^ 6) with 64. change (2 ^ 5) with 32. change (2 ^ 4) with 16.
  change (2 ^ 3) with 8. change (2 ^ 2) with 4. change (2 ^ 1) with 2.
  change (2 ^ 0) with 1.
  Z.div_mod_to_equations. lia.
Qed.

Ltac eval_bit_index :=
  repeat match goal with
         | |- context [Z.testbit _ ?e] =>
             lazymatch e with
             | Zpos _ => fail
             | Z0 => fail
             | Zneg _ => fail
             | _ => let e' := eval compute in e in change e with e'
             end
         end.

Ltac bits_of_val :=
  rewrite ?Z.shiftr_spec by lia;
  rewrite ?Z.lor_spec;
  rewrite ?Z.shiftl_spec by lia;
  eval_bit_index;
  repeat match goal with
         | |- context [Z.testbit (to_Z ?b) ?i] =>
             first [ rewrite (to_Z_testbit_high b i) by lia
                   | rewrite (Z.testbit_neg_r (to_Z b) i) by lia ]
         end;
  rewrite ?orb_false_r, ?orb_false_l;
  reflexivity.

Ltac split_lists :=
  repeat match goal with
         | |- _ :: _ = _ :: _ => apply (f_equal2 cons)
         | |- @nil _ = @nil _ => reflexivity
         end.

Lemma group3_bits (b0 b1 b2 : byte) :
  let val := Z.lor (Z.lor (Z.shiftl (to_Z b0) 16) (Z.shiftl (to_Z b1) 8)) (to_Z b2) in
  sextets (bits_of_byte b0 ++ bits_of_byte b1 ++ bits_of_byte b2) =
    [ low6 (Z.shiftr val 18); low6 (Z.shiftr val 12);
      low6 (Z.shiftr val 6); low6 val ].
Proof.
  intros val. unfold bits_of_byte, low6. cbn [map app sextets].
  subst val. split_lists; bits_of_val.
Qed.

Lemma group2_bits (b0 b1 : byte) :
  let val := Z.lor (Z.shiftl (to_Z b0) 16) (Z.shiftl (to_Z b1) 8) in
  sextets (bits_of_byte b0 ++ bits_of_byte b1) =
    [ low6 (Z.shiftr val 18); low6 (Z.shiftr val 12); low6 (Z.shiftr val 6) ].
Proof.
  intros val. unfold bits_of_byte, low6. cbn [map app sextets].
  subst val. split_lists; bits_of_val.
Qed.

Lemma group1_bits (b0 : byte) :
  let val := Z.shiftl (to_Z b0) 16 in
  sextets (bits_of_byte b0) = [ low6 (Z.shiftr val 18); low6 (Z.shiftr val 12) ].
Proof.
  intros val. unfold bits_of_byte, low6. cbn [map app sextets].
  subst val. split_lists; bits_of_val.
Qed.

Lemma sextets_after_group3 (b0 b1 b2 : byte) (rest : list bool) :
  sextets (bits_of_byte b0 ++ bits_of_byte b1 ++ bits_of_byte b2 ++ rest) =
  sextets (bits_of_byte b0 ++ bits_of_byte b1 ++ bits_of_byte b2) ++ sextets rest.
Proof. reflexivity. Qed.

(** Lists, three elements at a time. *)
Lemma list_ind_by_3 {A : Type} (P : list A -> Prop) :
  P [] -> (forall a, P [a]) -> (forall a b, P [a; b]) ->
  (forall a b c l, P l -> P (a :: b :: c :: l)) ->
  forall l, P l.
Proof.
  intros H0 H1 H2 H3 l.
  enough (Hall : P l /\ (forall a, P (a :: l)) /\ (forall a b, P (a :: b :: l)))
    by apply Hall.
  induction l as [| c l (Hl & Hl1 & Hl2)].
  - auto.
  - repeat split; auto.
Qed.

Lemma enc_at_low6 (v : Z) :
  enc_at RawURLEncoding (Z.land v 0x3F) = sextet_char (low6 v).
Proof. unfold enc_at, sextet_char. now rewrite land63_bits. Qed.

Lemma Encode_sextets (src : list byte) :
  Encode RawURLEncoding src =
    map sextet_char (sextets (flat_map bits_of_byte src)).
Proof.
  induction src as [| a | a b | a b c l IH] using list_ind_by_3.
  - reflexivity.
  - cbn [flat_map]. rewrite app_nil_r, group1_bits.
    cbn [Encode map]. now rewrite !enc_at_low6.
  - cbn [flat_map]. rewrite app_nil_r, group2_bits.
    cbn [Encode map]. now rewrite !enc_at_low6.
  - cbn [flat_map]. rewrite sextets_after_group3, group3_bits, map_app.
    cbn [Encode map app]. rewrite !enc_at_low6. now rewrite IH.
Qed.

Lemma land63_range (v : Z) : 0 <= Z.land v 0x3F < 64.
Proof.
  change 0x3F with (Z.ones 6). rewrite Z.land_ones by lia.
  apply Z.mod_pos_bound. reflexivity.
Qed.

Lemma enc_at_alphabet (v : Z) :
  In (enc_at RawURLEncoding (Z.land v 0x3F)) url_safe_alphabet.
Proof.
  unfold enc_at. apply nth_In.
  change (length url_safe_alphabet) with 64%nat.
  pose proof (land63_range v). lia.
Qed.

Lemma Encode_alphabet (src : list byte) :
  Forall (fun c => In c url_safe_alphabet) (Encode RawURLEncoding src).
Proof.
  induction src as [| a | a b | a b c l IH] using list_ind_by_3;
    cbn [Encode pad padChar RawURLEncoding WithPadding NoPadding];
    repeat (constructor; [apply enc_at_alphabet |]);
    first [exact IH | constructor].
Qed.

Lemma padding_not_in_alphabet : ~ In StdPadding url_safe_alphabet.
Proof.
  intros Hin. unfold url_safe_alphabet in Hin. cbn in Hin.
  repeat (destruct Hin as [Hin | Hin]; [discriminate Hin |]).
  exact Hin.
Qed.

Lemma Encode_length (src : list byte) :
  length (Encode RawURLEncoding src) = ((length src * 8 + 5) / 6)%nat.
Proof.
  induction src as [| a | a b | a b c l IH] using list_ind_by_3;
    try reflexivity.
  cbn [Encode length]. rewrite IH.
  replace (S (S (S (length l))) * 8 + 5)%nat
    with ((length l * 8 + 5) + 4 * 6)%nat by lia.
  rewrite Nat.div_add by discriminate. lia.
Qed.

Lemma to_string_length (bs : list byte) :
  String.length (to_string bs) = length bs.
Proof.
  unfold to_string, string_of_list_byte.
  induction bs as [| b bs IH]; cbn; [reflexivity | now rewrite IH].
Qed.

Lemma of_string_to_string (bs : list byte) : of_string (to_string bs) = bs.
Proof. apply list_byte_of_string_of_list_byte. Qed.

(** [EncodeToString] with [RawURLEncoding] is the reference encoding. *)
Lemma EncodeToString_reference (src : list byte) :
  EncodeToString RawURLEncoding src = base64url_nopad_reference src.
Proof.
  unfold EncodeToString, base64url_nopad_reference.
  now rewrite Encode_sextets.
Qed.

End Base64Facts.

(** ** The code challenge *)

(** The example of RFC 7636, appendix B. *)
Example codeChallenge_rfc7636 :
  Pkce.codeChallenge (GoBytes.of_string "dBjftJeZ4CVP-mB92K27uhbUJU1p1r_wW1gFWFOEjXk")
  = Some "E9Melhoa2OwvFrEMTJguCHaoeK1t8URWbuGJSstw-cM"%string.
Proof. vm_compute. reflexivity. Qed.

Lemma codeChallenge_total (V : list byte) :
  Pkce.codeChallenge V = Some (Pkce.reference_challenge V).
Proof.
  unfold Pkce.codeChallenge, Pkce.reference_challenge.
  now rewrite Sum256_reference, EncodeToString_reference.
Qed.

(** The challenge has 43 characters of the URL-safe alphabet, none of
    them the padding character. *)
Lemma reference_challenge_shape (V : list byte) :
  String.length (Pkce.reference_challenge V) = 43 /\
  Forall (fun c => In c Base64.url_safe_alphabet /\ c <> Base64.StdPadding)
         (GoBytes.of_string (Pkce.reference_challenge V)).
Proof.
  unfold Pkce.reference_challenge.
  rewrite <- EncodeToString_reference. unfold Base64.EncodeToString.
  rewrite to_string_length, of_string_to_string, Encode_length,
    sha256_reference_length.
  split; [reflexivity |].
  induction (Encode_alphabet (Sha256.sha256_reference V)) as [| c l Hc _ IH];
    constructor; [split; [exact Hc |] | exact IH].
  intros ->. now apply padding_not_in_alphabet.
Qed.

(** ** The token refresher *)

Section RefresherFacts.
Import Go Fitbit.
Context {ext : Externals}.


Lemma refresh_values_refresh_token (last : Token) :
  refresh_values last !! "refresh_token"%string = Some [RefreshToken last].
Proof.
  unfold refresh_values.
  rewrite lookup_insert_ne by discriminate. apply lookup_insert_eq.
Qed.

(** Every call on a refresher that holds a token makes one request. *)
Lemma Token_requests (tkr : tokenRefresher) (w : World) (last : Token) :
  lastToken tkr = Some last ->
  requests (snd (tokenRefresher_Token tkr w)) =
    requests w ++ [refresh_request tkr last].
Proof.
  intros Hlast. unfold tokenRefresher_Token, retrieveToken. rewrite Hlast.
  fold (refresh_request tkr last).
  destruct (refreshReply (refresh_request tkr last) (env w)) as [[new err] env1].
  destruct err as [e |]; [reflexivity |].
  destruct (updateTokenFunc (client tkr)) as [hook |]; [| reflexivity].
  cbn [env requests].
  destruct (hook (Some last) new env1) as [[e |] env2]; reflexivity.
Qed.

(** A refresher whose [lastToken] is nil panics before any request. *)
Lemma Token_nil_lastToken (tkr : tokenRefresher) (w : World) :
  lastToken tkr = None ->
  tokenRefresher_Token tkr w = (Panics, tkr, w).
Proof. intros Hnil. unfold tokenRefresher_Token. now rewrite Hnil. Qed.

(** An error of the token endpoint comes back as it is, the hook is not
    called and the refresher is unchanged. *)
Lemma Token_endpoint_error (tkr : tokenRefresher) (w : World) (last : Token)
    (new : option Token) (e : error) (env1 : Env) :
  lastToken tkr = Some last ->
  refreshReply (refresh_request tkr last) (env w) = ((new, Some e), env1) ->
  tokenRefresher_Token tkr w =
    (Returns (None, Some e), tkr,
     mkWorld env1 (requests w ++ [refresh_request tkr last])).
Proof.
  intros Hlast Hreply. unfold tokenRefresher_Token, retrieveToken.
  rewrite Hlast. fold (refresh_request tkr last). now rewrite Hreply.
Qed.

(** C1: when the token endpoint answers a refresh with a token and no
    error, and the update hook called with the old and the new token
    returns an error, [Token] returns that error and no token, and the
    refresher is as it was before the call: [lastToken] is still the
    pre-refresh token.  The next call, in whatever state the world is,
    sends one request, whose [refresh_token] is the pre-refresh one. *)
Theorem Token_hook_failure_keeps_lastToken
    (tkr : tokenRefresher) (w : World) (last : Token) (new : option Token)
    (hook : UpdateTokenFunc) (e : error) (env1 env2 : Env) :
  lastToken tkr = Some last ->
  updateTokenFunc (client tkr) = Some hook ->
  refreshReply (refresh_request tkr last) (env w) = ((new, None), env1) ->
  hook (Some last) new env1 = (Some e, env2) ->
  tokenRefresher_Token tkr w =
    (Returns (None, Some e), tkr,
     mkWorld env2 (requests w ++ [refresh_request tkr last])) /\
  lastToken (snd (fst (tokenRefresher_Token tkr w))) = Some last /\
  forall w2 : World,
    requests (snd (tokenRefresher_Token (snd (fst (tokenRefresher_Token tkr w))) w2)) =
      requests w2 ++ [refresh_request tkr last] /\
    Url.Get (refresh_values last) "refresh_token" = RefreshToken last.
Proof.
  intros Hlast Hhook Hreply Herr.
  assert (Hcall : tokenRefresher_Token tkr w =
            (Returns (None, Some e), tkr,
             mkWorld env2 (requests w ++ [refresh_request tkr last]))).
  { unfold tokenRefresher_Token, retrieveToken. rewrite Hlast.
    fold (refresh_request tkr last). rewrite Hreply, Hhook.
    cbn [env requests]. rewrite <- Hlast at 1. rewrite Hlast, Herr.
    reflexivity. }
  rewrite Hcall. cbn [fst snd].
  split; [reflexivity |]. split; [exact Hlast |].
  intros w2. split; [now apply Token_requests |].
  unfold Url.Get. now rewrite refresh_values_refresh_token.
Qed.


End RefresherFacts.

(** ** The authorization URL *)

Section AuthCodeURLFacts.
Import Go Fitbit.
Context {ext : Externals}.
Local Open Scope string_scope.

Ltac lookup_values :=
  repeat first [ rewrite lookup_insert_eq
               | rewrite lookup_insert_ne by discriminate
               | rewrite lookup_empty ].

Ltac auth_values c state :=
  unfold OAuth2.AuthCodeURL_values, authCodeOpts;
  destruct (debugMode c);
  destruct (String.eqb (OAuth2.RedirectURL (oauth2Config c)) "");
  destruct (OAuth2.Scopes (oauth2Config c)) as [| scope0 scopes];
  destruct (String.eqb_spec state "");
  cbn [OAuth2.apply_opts fold_left app OAuth2.setValue OAuth2.key OAuth2.value
       Url.Set_ length Nat.ltb Nat.leb];
  unfold OAuth2.ApprovalForce;
  cbn [OAuth2.setValue OAuth2.key OAuth2.value Url.Set_];
  lookup_values.

(** [AuthCodeURL] returns, and makes no request. *)
Lemma AuthCodeURL_returns (g : Lengths) (c : Client) (redirectURI : string) (w : World) :
  AuthCodeURL g c redirectURI w =
    (Returns
       (OAuth2.AuthCodeURL (oauth2Config c) (drawn_state g w)
          (authCodeOpts c (Pkce.reference_challenge (drawn_verifier g w)) redirectURI),
        drawn_state g w, GoBytes.to_string (drawn_verifier g w)),
     mkWorld
       (snd (randomBytes (CodeVerifierLength g)
               (snd (randomBytes (CSRFStateLength g) (env w)))))
       (requests w)).
Proof.
  unfold AuthCodeURL, drawn_state, drawn_verifier.
  destruct (randomBytes (CSRFStateLength g) (env w)) as [stateBytes e1].
  cbn [fst snd].
  destruct (randomBytes (CodeVerifierLength g) e1) as [codeVerifier e2].
  cbn [fst snd].
  now rewrite codeChallenge_total.
Qed.

Lemma authURL_prompt (c : Client) (state challenge redirectURI : string) :
  OAuth2.AuthCodeURL_values (oauth2Config c) state
    (authCodeOpts c challenge redirectURI) !! "prompt" =
  if debugMode c then Some ["consent"] else None.
Proof. auth_values c state; reflexivity. Qed.

Lemma authURL_fixed (c : Client) (state challenge redirectURI : string) :
  let v := OAuth2.AuthCodeURL_values (oauth2Config c) state
             (authCodeOpts c challenge redirectURI) in
  v !! "client_id" = Some [OAuth2.ClientID (oauth2Config c)] /\
  v !! "response_type" = Some ["code"] /\
  v !! "redirect_uri" = Some [redirectURI] /\
  v !! "code_challenge" = Some [challenge] /\
  v !! "code_challenge_method" = Some [CodeChallengeMethod].
Proof. intros v. subst v. repeat split; auth_values c state; reflexivity. Qed.




(** C4: the URL that [AuthCodeURL] returns for a client in debug mode has
    the query parameter [prompt] with the value [consent]; for a client
    not in debug mode it has no parameter [prompt]. *)
Theorem AuthCodeURL_prompt_consent
    (g : Lengths) (c : Client) (redirectURI : string) (w : World) :
  exists (u : Url.URL) (state verifier : string),
    fst (AuthCodeURL g c redirectURI w) = Returns (u, state, verifier) /\
    (debugMode c = true -> Url.Query u !! "prompt" = Some ["consent"]) /\
    (debugMode c = false -> Url.Query u !! "prompt" = None).
Proof.
  rewrite AuthCodeURL_returns. cbn [fst].
  eexists _, _, _. split; [reflexivity |].
  unfold OAuth2.AuthCodeURL. cbn [Url.Query]. rewrite authURL_prompt.
  split; intros ->; reflexivity.
Qed.


End AuthCodeURLFacts.

(** ** [strings.Split] and [strings.Join] *)

Section StringsFacts.
Import Strings.
Local Open Scope string_scope.

Lemma Split_not_nil (s : string) (sep : ascii) : Split s sep <> [].
Proof.
  destruct s as [| a s]; cbn [Split]; [discriminate |].
  destruct (Ascii.eqb a sep); [discriminate |].
  destruct (Split s sep); discriminate.
Qed.

Lemma Join_cons (a : string) (rest : list string) (sep : string) :
  rest <> [] -> Join (a :: rest) sep = a ++ sep ++ Join rest sep.
Proof. destruct rest; [congruence | reflexivity]. Qed.

(** Joining the pieces with the separator gives the string back. *)
Lemma Join_Split (s : string) (sep : ascii) :
  Join (Split s sep) (String sep "") = s.
Proof.
  induction s as [| a s IH]; [reflexivity |].
  cbn [Split]. destruct (Ascii.eqb_spec a sep) as [-> | Hne].
  - rewrite Join_cons by apply Split_not_nil. cbn. now rewrite IH.
  - pose proof (Split_not_nil s sep) as Hnil.
    destruct (Split s sep) as [| piece pieces]; [congruence |].
    destruct pieces as [| piece' pieces].
    + cbn in IH |- *. now rewrite IH.
    + rewrite Join_cons by discriminate.
      rewrite Join_cons in IH by discriminate.
      cbn. now rewrite <- IH.
Qed.

(** No piece contains the separator. *)
Lemma Split_pieces (s : string) (sep : ascii) :
  Forall (fun piece => ~ In sep (list_ascii_of_string piece)) (Split s sep).
Proof.
  induction s as [| a s IH]; cbn [Split].
  - constructor; [intros [] | constructor].
  - destruct (Ascii.eqb_spec a sep) as [-> | Hne].
    + constructor; [intros [] | exact IH].
    + destruct (Split s sep) as [| piece pieces].
      * constructor; [| constructor]. cbn. intros [Heq | []]. congruence.
      * inversion IH as [| ? ? Hpiece Hrest]; subst.
        constructor; [| exact Hrest].
        cbn. intros [Heq | Hin]; [congruence | now apply Hpiece].
Qed.

Example Split_two_spaces : Split "a  b" " " = ["a"; ""; "b"].
Proof. reflexivity. Qed.

Example Split_empty : Split "" " " = [""].
Proof. reflexivity. Qed.

End StringsFacts.

(** ** The code exchange *)

Section LinkFacts.
Import Go Fitbit.
Context {ext : Externals}.
Local Open Scope string_scope.
Local Open Scope list_scope.

Ltac lookup_values :=
  repeat first [ rewrite lookup_insert_eq
               | rewrite lookup_insert_ne by discriminate
               | rewrite lookup_empty ].

Ltac link_values c :=
  unfold OAuth2.Exchange_values, linkOpts;
  destruct (applicationType c);
  destruct (String.eqb (OAuth2.RedirectURL (oauth2Config c)) "");
  cbn [is_ServerApplication OAuth2.apply_opts fold_left app OAuth2.setValue
       OAuth2.key OAuth2.value Url.Set_];
  lookup_values.

(** [Link] makes one request, whatever the provider answers. *)
Lemma Link_requests (c : Client) (ctx : Context)
    (code codeVerifier reqURIString : string) (w : World) :
  requests (snd (Link c ctx code codeVerifier reqURIString w)) =
    requests w ++ [link_request c ctx code codeVerifier reqURIString].
Proof.
  unfold Link, Exchange. fold (link_request c ctx code codeVerifier reqURIString).
  destruct (exchangeReply _ (env w)) as [[err | token] env1].
  - destruct (As_RetrieveError err) as [[response body] |]; [| reflexivity].
    destruct (parseError response body); reflexivity.
  - destruct (assert_string (OAuth2.Extra token "user_id")); [| reflexivity].
    destruct (assert_string (OAuth2.Extra token "scope")); reflexivity.
Qed.

(** What [Link] does with the provider's answer. *)
Lemma Link_after_exchange (c : Client) (ctx : Context)
    (code codeVerifier reqURIString : string) (w : World)
    (r : error + OAuth2.Token) (env1 : Env) :
  exchangeReply (link_request c ctx code codeVerifier reqURIString) (env w) = (r, env1) ->
  fst (Link c ctx code codeVerifier reqURIString w) =
    match r with
    | inl err =>
        match As_RetrieveError err with
        | Some (response, body) =>
            match parseError response body with
            | Some e => Returns (None, Some (WrapError cannotFetchToken e))
            | None => Returns (None, Some (WrapError cannotFetchToken err))
            end
        | None => Returns (None, Some (WrapError cannotFetchToken err))
        end
    | inr token =>
        match assert_string (OAuth2.Extra token "user_id"),
              assert_string (OAuth2.Extra token "scope") with
        | Some userID, Some scopeString =>
            Returns
              (Some (mkLinkResponse userID
                       (newScope (Strings.Split scopeString " "))
                       (mkToken (OAuth2.AccessToken token) (OAuth2.TokenType token)
                                (OAuth2.RefreshToken token) (OAuth2.Expiry token))),
               None)
        | _, _ => Panics
        end
    end.
Proof.
  intros Hreply. unfold Link, Exchange.
  fold (link_request c ctx code codeVerifier reqURIString). rewrite Hreply.
  destruct r as [err | token].
  - destruct (As_RetrieveError err) as [[response body] |]; [| reflexivity].
    destruct (parseError response body); reflexivity.
  - destruct (assert_string (OAuth2.Extra token "user_id")); [| reflexivity].
    destruct (assert_string (OAuth2.Extra token "scope")); reflexivity.
Qed.

(** C2: when the exchange fails with an error that is, or wraps, an
    [oauth2.RetrieveError] whose response and body [parseError] parses,
    [Link] returns the parsed error wrapped by the text
    [fitbit(oauth2): cannot fetch token]; on any other failure it returns
    the error of the exchange wrapped by the same text; in both cases the
    response it returns is nil. *)
Theorem Link_exchange_failure (c : Client) (ctx : Context)
    (code codeVerifier reqURIString : string) (w : World)
    (err : error) (env1 : Env) :
  exchangeReply (link_request c ctx code codeVerifier reqURIString) (env w)
    = (inl err, env1) ->
  (forall response body e,
      As_RetrieveError err = Some (response, body) ->
      parseError response body = Some e ->
      fst (Link c ctx code codeVerifier reqURIString w) =
        Returns (None, Some (WrapError "fitbit(oauth2): cannot fetch token: " e))) /\
  ((As_RetrieveError err = None \/
    exists response body,
      As_RetrieveError err = Some (response, body) /\
      parseError response body = None) ->
   fst (Link c ctx code codeVerifier reqURIString w) =
     Returns (None, Some (WrapError "fitbit(oauth2): cannot fetch token: " err))) /\
  exists reported,
    fst (Link c ctx code codeVerifier reqURIString w) =
      Returns (None, Some (WrapError "fitbit(oauth2): cannot fetch token: " reported)).
Proof.
  intros Hreply. rewrite (Link_after_exchange _ _ _ _ _ _ _ _ Hreply).
  change cannotFetchToken with "fitbit(oauth2): cannot fetch token: ".
  split; [| split].
  - intros response body e -> ->. reflexivity.
  - intros [-> | (response & body & -> & ->)]; reflexivity.
  - destruct (As_RetrieveError err) as [[response body] |]; [| eauto].
    destruct (parseError response body); eauto.
Qed.

(** C5: the request of [Link] to the token endpoint is the one request
    the call makes; its form has the grant [authorization_code], the
    [code], the [code_verifier] and the [redirect_uri] given to [Link],
    and a [client_id], the client's, exactly when the application type is
    [ServerApplication]. *)
Theorem Link_request_form (c : Client) (ctx : Context)
    (code codeVerifier reqURIString : string) (w : World) :
  exists v : Url.Values,
    requests (snd (Link c ctx code codeVerifier reqURIString w)) =
      requests w ++ [ExchangeCall ctx (oauth2Config c) v] /\
    v !! "grant_type" = Some ["authorization_code"] /\
    v !! "code" = Some [code] /\
    v !! "code_verifier" = Some [codeVerifier] /\
    v !! "redirect_uri" = Some [reqURIString] /\
    v !! "client_id" =
      (if is_ServerApplication (applicationType c)
       then Some [OAuth2.ClientID (oauth2Config c)] else None) /\
    (is_Some (v !! "client_id") <-> applicationType c = ServerApplication).
Proof.
  exists (OAuth2.Exchange_values (oauth2Config c) code
            (linkOpts c codeVerifier reqURIString)).
  split; [apply Link_requests |].
  do 4 (split; [link_values c; reflexivity |]).
  assert (Hid : OAuth2.Exchange_values (oauth2Config c) code
                  (linkOpts c codeVerifier reqURIString) !! "client_id" =
                if is_ServerApplication (applicationType c)
                then Some [OAuth2.ClientID (oauth2Config c)] else None)
    by (link_values c; reflexivity).
  split; [exact Hid |].
  rewrite Hid. destruct (applicationType c); cbn [is_ServerApplication].
  - split; [reflexivity | eauto].
  - split; [intros [x Hx]; discriminate Hx | discriminate].
Qed.

Lemma assert_string_None (v : Any) :
  assert_string v = None <-> forall s, v <> AnyString s.
Proof.
  destruct v; cbn; split; try discriminate; try reflexivity.
  intros Hne. now elim (Hne s).
Qed.

Lemma assert_string_Some (v : Any) (s : string) :
  assert_string v = Some s <-> v = AnyString s.
Proof. destruct v; cbn; split; congruence. Qed.

(** C6: when the exchange succeeds with a token whose extra fields
    [user_id] and [scope] are the strings [U] and [S], [Link] returns no
    error and a response whose [UserID] is [U], whose scope has for
    members the pieces of [S] between its spaces, and whose token has the
    access token, token type, refresh token and expiry of the token
    received; for [S] equal to [activity heartrate] the members are
    [activity] and [heartrate], and no other. *)
Theorem Link_success_response (c : Client) (ctx : Context)
    (code codeVerifier reqURIString : string) (w : World)
    (received : OAuth2.Token) (env1 : Env) (U S : string) :
  exchangeReply (link_request c ctx code codeVerifier reqURIString) (env w)
    = (inr received, env1) ->
  OAuth2.Extra received "user_id" = AnyString U ->
  OAuth2.Extra received "scope" = AnyString S ->
  exists resp : LinkResponse,
    fst (Link c ctx code codeVerifier reqURIString w) = Returns (Some resp, None) /\
    UserID resp = U /\
    scope resp = newScope (Strings.Split S " ") /\
    (forall name : string, name ∈ scope resp <-> In name (Strings.Split S " ")) /\
    AccessToken (token resp) = OAuth2.AccessToken received /\
    TokenType (token resp) = OAuth2.TokenType received /\
    RefreshToken (token resp) = OAuth2.RefreshToken received /\
    Expiry (token resp) = OAuth2.Expiry received /\
    (S = "activity heartrate" ->
     forall name : string,
       name ∈ scope resp <-> name = "activity" \/ name = "heartrate").
Proof.
  intros Hreply Huser Hscope.
  rewrite (Link_after_exchange _ _ _ _ _ _ _ _ Hreply), Huser, Hscope.
  cbn [assert_string].
  eexists. split; [reflexivity |]. cbn [UserID scope token AccessToken TokenType
                                        RefreshToken Expiry].
  split; [reflexivity |]. split; [reflexivity |].
  split.
  { intros name. unfold newScope. rewrite elem_of_list_to_set.
    apply list_elem_of_In. }
  do 4 (split; [reflexivity |]).
  intros -> name. unfold newScope. rewrite elem_of_list_to_set.
  cbn [Strings.Split Ascii.eqb Bool.eqb andb].
  rewrite !elem_of_cons, elem_of_nil. tauto.
Qed.

(** C9: when the exchange succeeds, [Link] panics exactly when the extra
    field [user_id] or the extra field [scope] of the token is not a
    string, and it returns a response, with no error, exactly when both
    are strings; in no case does it return an error. *)
Theorem Link_panics_without_string_extras (c : Client) (ctx : Context)
    (code codeVerifier reqURIString : string) (w : World)
    (received : OAuth2.Token) (env1 : Env) :
  exchangeReply (link_request c ctx code codeVerifier reqURIString) (env w)
    = (inr received, env1) ->
  (fst (Link c ctx code codeVerifier reqURIString w) = Panics <->
     (forall U, OAuth2.Extra received "user_id" <> AnyString U) \/
     (forall S, OAuth2.Extra received "scope" <> AnyString S)) /\
  ((exists resp, fst (Link c ctx code codeVerifier reqURIString w)
                   = Returns (Some resp, None)) <->
     exists U S, OAuth2.Extra received "user_id" = AnyString U /\
                 OAuth2.Extra received "scope" = AnyString S) /\
  (forall resp e, fst (Link c ctx code codeVerifier reqURIString w)
                    <> Returns (resp, Some e)).
Proof.
  intros Hreply.
  rewrite (Link_after_exchange _ _ _ _ _ _ _ _ Hreply).
  rewrite <- !assert_string_None.
  pose proof (assert_string_Some (OAuth2.Extra received "user_id")) as HU.
  pose proof (assert_string_Some (OAuth2.Extra received "scope")) as HS.
  destruct (assert_string (OAuth2.Extra received "user_id")) as [u |];
    destruct (assert_string (OAuth2.Extra received "scope")) as [s |].
  - split; [| split].
    + split; [discriminate | intros [Hn | Hn]; discriminate Hn].
    + split; [| intros _; eexists; reflexivity].
      intros _. exists u, s. split; [now apply HU | now apply HS].
    + intros resp e. discriminate.
  - split; [| split].
    + split; [auto | reflexivity].
    + split; [intros [resp Hr]; discriminate Hr |].
      intros (U' & S' & _ & HS'). apply HS in HS'. discriminate HS'.
    + intros resp e. discriminate.
  - split; [| split].
    + split; [auto | reflexivity].
    + split; [intros [resp Hr]; discriminate Hr |].
      intros (U' & S' & HU' & _). apply HU in HU'. discriminate HU'.
    + intros resp e. discriminate.
  - split; [| split].
    + split; [auto | reflexivity].
    + split; [intros [resp Hr]; discriminate Hr |].
      intros (U' & S' & HU' & _). apply HU in HU'. discriminate HU'.
    + intros resp e. discriminate.
Qed.

End LinkFacts.

(** ** The scenarios, on the stub provider *)

Section Scenarios.
Import Go Fitbit Scenario.
Local Open Scope string_scope.
Local Open Scope list_scope.

(** The refresh succeeds and the hook fails: the error of the hook comes
    back and the refresher still holds the issued token. *)
Lemma Token_hook_failure_scenario :
  lastToken (refresher (Some failingHook)) = Some issued /\
  updateTokenFunc (client (refresher (Some failingHook))) = Some failingHook /\
  @refreshReply stub
    (refresh_request (refresher (Some failingHook)) issued) (env start)
    = ((Some refreshed, None), 1) /\
  failingHook (Some issued) (Some refreshed) 1
    = (Some (ErrorString "store unavailable"), 1) /\
  tokenRefresher_Token (refresher (Some failingHook)) start =
    (Returns (None, Some (ErrorString "store unavailable")),
     refresher (Some failingHook),
     mkWorld (ext := stub) 1
       [refresh_request (refresher (Some failingHook)) issued]).
Proof.
  assert (h1 : lastToken (refresher (Some failingHook)) = Some issued)
    by reflexivity.
  assert (h2 : updateTokenFunc (client (refresher (Some failingHook)))
               = Some failingHook) by reflexivity.
  assert (h3 : @refreshReply stub
                 (refresh_request (refresher (Some failingHook)) issued) (env start)
               = ((Some refreshed, None), 1)) by reflexivity.
  assert (h4 : failingHook (Some issued) (Some refreshed) 1
               = (Some (ErrorString "store unavailable"), 1)) by reflexivity.
  repeat (split; [assumption |]).
  exact (proj1 (Token_hook_failure_keeps_lastToken
                  (refresher (Some failingHook)) start issued (Some refreshed)
                  failingHook (ErrorString "store unavailable") 1 1
                  h1 h2 h3 h4)).
Defined.


(** The code [used] is refused with status 400: the parsed error comes
    back wrapped, and no response. *)
Lemma Link_provider_error_scenario :
  @exchangeReply stub
    (link_request (serverClient None) 0 "used" "Vxyz" "https://app/callback")
    (env start)
    = (inl (RetrieveError badRequest []), 1) /\
  fst (Link (serverClient None) 0 "used" "Vxyz" "https://app/callback" start) =
    Returns (None, Some (WrapError "fitbit(oauth2): cannot fetch token: " invalidGrant)).
Proof.
  assert (h1 : @exchangeReply stub
                 (link_request (serverClient None) 0 "used" "Vxyz" "https://app/callback")
                 (env start)
               = (inl (RetrieveError badRequest []), 1))
    by (vm_compute; reflexivity).
  split; [exact h1 |].
  exact (proj1 (Link_exchange_failure (serverClient None) 0 "used" "Vxyz"
                  "https://app/callback" start _ 1 h1)
               badRequest [] invalidGrant eq_refl eq_refl).
Defined.

(** The exchange scenario of the specification. *)
Lemma Link_success_scenario :
  @exchangeReply stub
    (link_request (serverClient None) 0 "abc123" "Vxyz" "https://app/callback")
    (env start)
    = (inr exchanged, 1) /\
  OAuth2.Extra exchanged "user_id" = AnyString "U1" /\
  OAuth2.Extra exchanged "scope" = AnyString "activity heartrate" /\
  exists resp : LinkResponse,
    fst (Link (serverClient None) 0 "abc123" "Vxyz" "https://app/callback" start)
      = Returns (Some resp, None) /\
    UserID resp = "U1" /\
    AccessToken (token resp) = "AT1" /\
    forall name : string,
      name ∈ scope resp <-> name = "activity" \/ name = "heartrate".
Proof.
  assert (h1 : @exchangeReply stub
                 (link_request (serverClient None) 0 "abc123" "Vxyz"
                    "https://app/callback") (env start)
               = (inr exchanged, 1))
    by (vm_compute; reflexivity).
  assert (h2 : OAuth2.Extra exchanged "user_id" = AnyString "U1") by reflexivity.
  assert (h3 : OAuth2.Extra exchanged "scope" = AnyString "activity heartrate")
    by reflexivity.
  repeat (split; [assumption |]).
  destruct (Link_success_response (serverClient None) 0 "abc123" "Vxyz"
              "https://app/callback" start exchanged 1 "U1" "activity heartrate"
              h1 h2 h3)
    as (resp & Hresp & Huser & _ & _ & Haccess & _ & _ & _ & Hmembers).
  exists resp. repeat split; try assumption; now apply Hmembers.
Defined.

(** A token response without [user_id]: [Link] panics. *)
Lemma Link_panic_scenario :
  @exchangeReply stub
    (link_request publicClient 0 "nouser" "Vxyz" "https://app/callback")
    (env start)
    = (inr anonymous, 1) /\
  fst (Link publicClient 0 "nouser" "Vxyz" "https://app/callback" start) = Panics.
Proof.
  assert (h1 : @exchangeReply stub
                 (link_request publicClient 0 "nouser" "Vxyz" "https://app/callback")
                 (env start)
               = (inr anonymous, 1))
    by (vm_compute; reflexivity).
  split; [exact h1 |].
  apply (Link_panics_without_string_extras publicClient 0 "nouser" "Vxyz"
           "https://app/callback" start anonymous 1 h1).
  left. intros U. discriminate.
Defined.

End Scenarios.

Section MoreScenarios.
Import Go Fitbit Scenario.
Local Open Scope string_scope.
Local Open Scope list_scope.

(** With the default lengths the stub's random source gives a state and a
    verifier of 128 characters; the client is in debug mode. *)
Example AuthCodeURL_scenario :
  match fst (AuthCodeURL defaultLengths publicClient "https://app/callback" start) with
  | Returns (u, state, verifier) =>
      String.length state = 128 /\ String.length verifier = 128 /\
      Url.Endpoint u = "https://www.fitbit.com/oauth2/authorize" /\
      Url.Get (Url.Query u) "client_id" = "22ABCD" /\
      Url.Get (Url.Query u) "scope" = "activity heartrate" /\
      Url.Get (Url.Query u) "state" = state /\
      Url.Get (Url.Query u) "redirect_uri" = "https://app/callback" /\
      Url.Get (Url.Query u) "code_challenge" = "aDbPE7rEAOkQUHHNavRwhN-srU5eMCyUv-0k4BOvtz4" /\
      Url.Get (Url.Query u) "code_challenge_method" = "S256" /\
      Url.Get (Url.Query u) "prompt" = "consent"
  | Panics => False
  end.
Proof. vm_compute. repeat split. Qed.

(** An exchange that times out: the error of the transport comes back
    wrapped, as it is. *)
Example Link_transport_failure_scenario :
  fst (Link (serverClient None) 0 "later" "Vxyz" "https://app/callback" start) =
    Returns (None, Some (WrapError "fitbit(oauth2): cannot fetch token: " timeout)).
Proof. vm_compute. reflexivity. Qed.

(** After the failure of the hook, the next call asks again with the
    refresh token issued first. *)
Example Token_retry_scenario :
  let '(_, tkr, w) := tokenRefresher_Token (refresher (Some failingHook)) start in
  map (fun req =>
         match req with
         | RetrieveTokenCall _ _ _ _ v _ => Url.Get v "refresh_token"
         | ExchangeCall _ _ _ => ""
         end)
      (requests (snd (tokenRefresher_Token tkr w))) = ["RT1"; "RT1"].
Proof. vm_compute. reflexivity. Qed.

(** After a refresh that the hook accepts, the next call asks with the
    new refresh token. *)
Example Token_rotation_scenario :
  let '(_, tkr, w) := tokenRefresher_Token (refresher (Some savingHook)) start in
  map (fun req =>
         match req with
         | RetrieveTokenCall _ _ _ _ v _ => Url.Get v "refresh_token"
         | ExchangeCall _ _ _ => ""
         end)
      (requests (snd (tokenRefresher_Token tkr w))) = ["RT1"; "RT2"].
Proof. vm_compute. reflexivity. Qed.

End MoreScenarios.

(* ===================================================================== *)
(** * Further properties of the code *)
(* ===================================================================== *)

(** ** The units of a locale *)

(** X1: for every locale the unit table gives miles only for [en_US];
    every other locale has the metric units of length, volume and blood
    glucose, and the weight is in pounds for [en_US], in stone for
    [en_GB] and in kilograms otherwise. *)
Theorem units_of_locale (locale : Localization.Locale) :
  exists u : Localization.Unit,
    Localization.getCorrespondingUnit locale = Some u /\
    (Localization.Distance u = "mile"%string <-> locale = "en_US"%string) /\
    (locale <> "en_US"%string ->
       Localization.Distance u = "km"%string /\
       Localization.Elevation u = "m"%string /\
       Localization.Height u = "cm"%string /\
       Localization.BodyMeasurements u = "cm"%string /\
       Localization.Liquids u = "ml"%string /\
       Localization.BloodGlucose u = "mmol/l"%string) /\
    (Localization.Weight u = "lb"%string <-> locale = "en_US"%string) /\
    (Localization.Weight u = "st"%string <-> locale = "en_GB"%string) /\
    (Localization.Weight u = "kg"%string <->
       locale <> "en_US"%string /\ locale <> "en_GB"%string).
Proof.
  unfold Localization.getCorrespondingUnit, Localization.LocaleUnitedStates,
    Localization.LocaleUnitedKingdom.
  destruct (String.eqb_spec locale "en_US") as [Hus | Hus];
    [| destruct (String.eqb_spec locale "en_GB") as [Huk | Huk]];
    eexists; (split; [reflexivity |]); cbn.
  - subst locale. repeat split; try discriminate; try reflexivity;
      try congruence. intros [Hne _]. now elim Hne.
  - subst locale. repeat split; try discriminate; try reflexivity;
      try congruence. intros [_ Hne]. now elim Hne.
  - repeat split; try discriminate; try reflexivity; try congruence.
Qed.

(** ** More on the token refresher *)

Section RefresherMore.
Import Go Fitbit Steps.
Context {ext : Externals}.
Local Open Scope string_scope.
Local Open Scope list_scope.

(** X2: when the token endpoint answers a refresh with an error, [Token]
    returns that error and no token after its one request, the refresher
    is unchanged, and the hook plays no part: the same holds whatever
    hook the client has. *)
Theorem Token_endpoint_error_ignores_hook
    (tkr : tokenRefresher) (w : World) (last : Token)
    (new : option Token) (e : error) (env1 : Env) :
  lastToken tkr = Some last ->
  refreshReply (refresh_request tkr last) (env w) = ((new, Some e), env1) ->
  tokenRefresher_Token tkr w =
    (Returns (None, Some e), tkr,
     mkWorld env1 (requests w ++ [refresh_request tkr last])) /\
  forall hook : option UpdateTokenFunc,
    tokenRefresher_Token
      (mkTokenRefresher (ctx tkr) (with_hook (client tkr) hook) (lastToken tkr)) w =
    (Returns (None, Some e),
     mkTokenRefresher (ctx tkr) (with_hook (client tkr) hook) (lastToken tkr),
     mkWorld env1 (requests w ++ [refresh_request tkr last])).
Proof.
  intros Hlast Hreply. split.
  - now apply (Token_endpoint_error tkr w last new).
  - intros hook.
    apply (Token_endpoint_error
             (mkTokenRefresher (ctx tkr) (with_hook (client tkr) hook) (lastToken tkr))
             w last new e env1 Hlast Hreply).
Qed.

(** X3: whatever a call of [Token] does, the refresher keeps its context
    and its client; its [lastToken] changes only when the call returns
    without error, and the token returned is then the new [lastToken];
    a call that returns an error or panics leaves the refresher as it
    was, and a panic leaves the world as it was. *)
Theorem Token_changes_lastToken_only_on_success
    (tkr : tokenRefresher) (w : World) :
  ctx (snd (fst (tokenRefresher_Token tkr w))) = ctx tkr /\
  client (snd (fst (tokenRefresher_Token tkr w))) = client tkr /\
  (lastToken (snd (fst (tokenRefresher_Token tkr w))) <> lastToken tkr ->
     fst (fst (tokenRefresher_Token tkr w)) =
       Returns (asOAuth2Token (lastToken (snd (fst (tokenRefresher_Token tkr w)))),
                None)) /\
  (forall o e, fst (fst (tokenRefresher_Token tkr w)) = Returns (o, Some e) ->
     snd (fst (tokenRefresher_Token tkr w)) = tkr) /\
  (fst (fst (tokenRefresher_Token tkr w)) = Panics ->
     snd (fst (tokenRefresher_Token tkr w)) = tkr /\
     snd (tokenRefresher_Token tkr w) = w).
Proof.
  unfold tokenRefresher_Token, retrieveToken.
  destruct (lastToken tkr) as [last |] eqn:Hlast.
  - destruct (refreshReply _ (env w)) as [[new err] env1].
    destruct err as [e |].
    + cbn [fst snd]. repeat split; try reflexivity; try discriminate.
      intros Hne. now elim Hne.
    + destruct (updateTokenFunc (client tkr)) as [hook |].
      * cbn [env requests].
        destruct (hook (Some last) new env1) as [[e |] env2]; cbn [fst snd ctx client lastToken].
        -- repeat split; try reflexivity; try discriminate.
           intros Hne. now elim Hne.
        -- repeat split; try reflexivity; try discriminate.
      * cbn [fst snd ctx client lastToken].
        repeat split; try reflexivity; try discriminate.
  - cbn [fst snd]. repeat split; try reflexivity; try discriminate.
    intros Hne. now elim Hne.
Qed.

(** What a call does when the endpoint answers without error. *)
Lemma Token_after_reply (tkr : tokenRefresher) (w : World) (last : Token)
    (new : option Token) (env1 : Env) :
  lastToken tkr = Some last ->
  refreshReply (refresh_request tkr last) (env w) = ((new, None), env1) ->
  tokenRefresher_Token tkr w =
    match hook_step (client tkr) (Some last) new env1 with
    | (Some e, env2) =>
        (Returns (None, Some e), tkr,
         mkWorld env2 (requests w ++ [refresh_request tkr last]))
    | (None, env2) =>
        (Returns (asOAuth2Token new, None),
         mkTokenRefresher (ctx tkr) (client tkr) new,
         mkWorld env2 (requests w ++ [refresh_request tkr last]))
    end.
Proof.
  intros Hlast Hreply. unfold tokenRefresher_Token, retrieveToken, hook_step.
  rewrite Hlast. fold (refresh_request tkr last). rewrite Hreply.
  destruct (updateTokenFunc (client tkr)) as [hook |]; [| reflexivity].
  cbn [env requests].
  destruct (hook (Some last) new env1) as [[e |] env2]; reflexivity.
Qed.

(** X4: after a refresh that the endpoint grants with the token [new] and
    that the hook, if any, accepts, the refresher holds [new], and its
    next call, in whatever state the world is, sends one request whose
    [refresh_token] is the refresh token of [new], not the earlier one. *)
Theorem Token_rotates_refresh_token
    (tkr : tokenRefresher) (w : World) (last new : Token) (env1 env2 : Env) :
  lastToken tkr = Some last ->
  refreshReply (refresh_request tkr last) (env w) = ((Some new, None), env1) ->
  hook_step (client tkr) (Some last) (Some new) env1 = (None, env2) ->
  lastToken (snd (fst (tokenRefresher_Token tkr w))) = Some new /\
  forall w2 : World,
    requests (snd (tokenRefresher_Token (snd (fst (tokenRefresher_Token tkr w))) w2)) =
      requests w2 ++ [refresh_request tkr new] /\
    Url.Get (refresh_values new) "refresh_token" = RefreshToken new.
Proof.
  intros Hlast Hreply Hhook.
  rewrite (Token_after_reply tkr w last (Some new) env1 Hlast Hreply), Hhook.
  cbn [fst snd lastToken]. split; [reflexivity |].
  intros w2. split.
  - apply (Token_requests (mkTokenRefresher (ctx tkr) (client tkr) (Some new))
             w2 new eq_refl).
  - unfold Url.Get. now rewrite refresh_values_refresh_token.
Qed.

(** X5: when the endpoint answers a refresh with neither a token nor an
    error and the hook, if any, accepts, [Token] returns neither a token
    nor an error and the refresher is left with a nil [lastToken]: every
    later call panics, and makes no request. *)
Theorem Token_nil_reply_strands_refresher
    (tkr : tokenRefresher) (w : World) (last : Token) (env1 env2 : Env) :
  lastToken tkr = Some last ->
  refreshReply (refresh_request tkr last) (env w) = ((None, None), env1) ->
  hook_step (client tkr) (Some last) None env1 = (None, env2) ->
  tokenRefresher_Token tkr w =
    (Returns (None, None),
     mkTokenRefresher (ctx tkr) (client tkr) None,
     mkWorld env2 (requests w ++ [refresh_request tkr last])) /\
  forall w2 : World,
    tokenRefresher_Token (snd (fst (tokenRefresher_Token tkr w))) w2 =
      (Panics, mkTokenRefresher (ctx tkr) (client tkr) None, w2).
Proof.
  intros Hlast Hreply Hhook.
  rewrite (Token_after_reply tkr w last None env1 Hlast Hreply), Hhook.
  cbn [fst snd asOAuth2Token]. split; [reflexivity |].
  intros w2. now apply Token_nil_lastToken.
Qed.

(** X6: a token that [Token] returns comes with no error and carries no
    extra field: [Extra] is nil for every key; its four fields are those
    of the token the refresher now holds. *)
Theorem Token_returned_token_has_no_extras
    (tkr : tokenRefresher) (w : World) (o : OAuth2.Token) (err : option error) :
  fst (fst (tokenRefresher_Token tkr w)) = Returns (Some o, err) ->
  err = None /\
  (forall key : string, OAuth2.Extra o key = AnyNil) /\
  exists t : Token,
    lastToken (snd (fst (tokenRefresher_Token tkr w))) = Some t /\
    OAuth2.AccessToken o = AccessToken t /\
    OAuth2.TokenType o = TokenType t /\
    OAuth2.RefreshToken o = RefreshToken t /\
    OAuth2.Expiry o = Expiry t.
Proof.
  unfold tokenRefresher_Token, retrieveToken.
  destruct (lastToken tkr) as [last |]; [| discriminate].
  destruct (refreshReply _ (env w)) as [[new err'] env1].
  destruct err' as [e |]; [discriminate |].
  assert (Hconv : forall err0,
            Returns (asOAuth2Token new, @None error) = Returns (Some o, err0) ->
            err0 = None /\ (forall key, OAuth2.Extra o key = AnyNil) /\
            exists t, new = Some t /\
              OAuth2.AccessToken o = AccessToken t /\
              OAuth2.TokenType o = TokenType t /\
              OAuth2.RefreshToken o = RefreshToken t /\
              OAuth2.Expiry o = Expiry t).
  { intros err0 Heq. destruct new as [t |]; [| discriminate].
    cbn [asOAuth2Token] in Heq. injection Heq as <- <-.
    split; [reflexivity |]. split; [reflexivity |].
    exists t. repeat split. }
  destruct (updateTokenFunc (client tkr)) as [hook |].
  - cbn [env requests].
    destruct (hook (Some last) new env1) as [[e |] env2]; [discriminate |].
    cbn [fst snd lastToken]. apply Hconv.
  - cbn [fst snd lastToken]. apply Hconv.
Qed.

End RefresherMore.

(** ** More on the authorization URL *)

Section AuthCodeURLMore.
Import Go Fitbit Steps.
Context {ext : Externals}.
Local Open Scope string_scope.
Local Open Scope list_scope.


(** X8: the debug flag changes nothing but the parameter [prompt]: in the
    same world a client draws the same state and verifier with or
    without the flag, and the query of the URL with the flag is the
    query of the URL without it, which has no [prompt], with
    [prompt=consent] added. *)
Theorem AuthCodeURL_debug_only_adds_prompt
    (g : Lengths) (c : Client) (redirectURI : string) (w : World) :
  exists (plain forced : Url.URL) (state verifier : string) (w' : World),
    AuthCodeURL g (with_debugMode c false) redirectURI w =
      (Returns (plain, state, verifier), w') /\
    AuthCodeURL g (with_debugMode c true) redirectURI w =
      (Returns (forced, state, verifier), w') /\
    Url.Endpoint forced = Url.Endpoint plain /\
    Url.Query plain !! "prompt" = None /\
    Url.Query forced = <["prompt" := ["consent"]]> (Url.Query plain).
Proof.
  rewrite !AuthCodeURL_returns.
  eexists _, _, _, _, _. split; [reflexivity |]. split; [reflexivity |].
  unfold OAuth2.AuthCodeURL. cbn [Url.Endpoint Url.Query].
  split; [reflexivity |]. split.
  - now rewrite authURL_prompt.
  - unfold OAuth2.AuthCodeURL_values, authCodeOpts, with_debugMode.
    cbn [debugMode oauth2Config]. unfold OAuth2.apply_opts.
    now rewrite fold_left_app.
Qed.

(** X9: when the random source returns as many bytes as it is asked for,
    the state that [AuthCodeURL] returns has [CSRFStateLength] characters
    and the code verifier [CodeVerifierLength] characters, and the
    [code_challenge] of the URL has 43 characters whatever these lengths
    are. *)
Theorem AuthCodeURL_lengths
    (g : Lengths) (c : Client) (redirectURI : string) (w : World) :
  (forall (n : Z) (e : Env), length (fst (randomBytes n e)) = Z.to_nat n) ->
  exists (u : Url.URL) (state verifier challenge : string),
    fst (AuthCodeURL g c redirectURI w) = Returns (u, state, verifier) /\
    String.length state = Z.to_nat (CSRFStateLength g) /\
    String.length verifier = Z.to_nat (CodeVerifierLength g) /\
    Url.Query u !! "code_challenge" = Some [challenge] /\
    String.length challenge = 43.
Proof.
  intros Hsource. rewrite AuthCodeURL_returns. cbn [fst].
  eexists _, _, _, (Pkce.reference_challenge (drawn_verifier g w)).
  split; [reflexivity |].
  split; [unfold drawn_state; now rewrite to_string_length, Hsource |].
  split; [unfold drawn_verifier; now rewrite to_string_length, Hsource |].
  unfold OAuth2.AuthCodeURL. cbn [Url.Query]. split.
  - apply (authURL_fixed c).
  - apply reference_challenge_shape.
Qed.

End AuthCodeURLMore.

(** ** More on the hash and the encoding of the challenge *)

Section ChallengeMore.
Import GoBytes Base64 Steps.

Lemma byte_of_bits_of_byte (b : byte) : byte_of_bits (bits_of_byte b) = b.
Proof. destruct b; vm_compute; reflexivity. Qed.

Lemma bits_of_byte_inj (a b : byte) : bits_of_byte a = bits_of_byte b -> a = b.
Proof.
  intros Heq. rewrite <- (byte_of_bits_of_byte a), <- (byte_of_bits_of_byte b).
  now rewrite Heq.
Qed.

(** Two groups of six bits with the same character are the same group. *)
Lemma sextet_char_inj (a b c d e f a' b' c' d' e' f' : bool) :
  sextet_char [a; b; c; d; e; f] = sextet_char [a'; b'; c'; d'; e'; f'] ->
  [a; b; c; d; e; f] = [a'; b'; c'; d'; e'; f'].
Proof.
  destruct a, b, c, d, e, f, a', b', c', d', e', f'; vm_compute;
    intros Heq; first [reflexivity | discriminate Heq].
Qed.

Lemma low6_char_inj (u v : Z) :
  enc_at RawURLEncoding (Z.land u 0x3F) = enc_at RawURLEncoding (Z.land v 0x3F) ->
  low6 u = low6 v.
Proof.
  rewrite !enc_at_low6. unfold low6. cbn [map]. apply sextet_char_inj.
Qed.

Lemma group3_inj (a b c a' b' c' : byte) :
  sextets (bits_of_byte a ++ bits_of_byte b ++ bits_of_byte c) =
  sextets (bits_of_byte a' ++ bits_of_byte b' ++ bits_of_byte c') ->
  a = a' /\ b = b' /\ c = c'.
Proof.
  intros Heq.
  repeat split; apply bits_of_byte_inj;
    unfold bits_of_byte in *; cbn [map app sextets] in *; congruence.
Qed.

Lemma group2_inj (a b a' b' : byte) :
  sextets (bits_of_byte a ++ bits_of_byte b) =
  sextets (bits_of_byte a' ++ bits_of_byte b') ->
  a = a' /\ b = b'.
Proof.
  intros Heq.
  repeat split; apply bits_of_byte_inj;
    unfold bits_of_byte in *; cbn [map app sextets] in *; congruence.
Qed.

Lemma group1_inj (a a' : byte) :
  sextets (bits_of_byte a) = sextets (bits_of_byte a') -> a = a'.
Proof.
  intros Heq. apply bits_of_byte_inj.
  unfold bits_of_byte in *; cbn [map app sextets] in *; congruence.
Qed.

Lemma Encode_inj (a : list byte) :
  forall b : list byte,
    Encode RawURLEncoding a = Encode RawURLEncoding b -> a = b.
Proof.
  induction a as [| x | x y | x y z l IH] using list_ind_by_3;
    intros [| x' [| y' [| z' l']]]; cbn [Encode pad padChar RawURLEncoding
                                          WithPadding NoPadding];
    intros Heq; try discriminate Heq; try reflexivity.
  - injection Heq as H1 H2. apply low6_char_inj in H1, H2.
    f_equal. apply group1_inj. rewrite !group1_bits. congruence.
  - injection Heq as H1 H2 H3. apply low6_char_inj in H1, H2, H3.
    destruct (group2_inj x y x' y') as [-> ->]; [| reflexivity].
    rewrite !group2_bits. congruence.
  - injection Heq as H1 H2 H3 H4 Hrest.
    apply low6_char_inj in H1, H2, H3, H4.
    destruct (group3_inj x y z x' y' z') as (-> & -> & ->).
    { rewrite !group3_bits. congruence. }
    f_equal. f_equal. f_equal. now apply IH.
Qed.

(** X10: [sha256.Sum256], as [AuthCodeURL] calls it, never panics: for
    every input the check of [checkSum] on buffered bytes passes, and the
    result is the 32 bytes of the hash that pads the message first and
    then folds its blocks. *)
Theorem Sum256_never_panics (data : list byte) :
  exists d : list byte,
    Sha256.Sum256 data = Some d /\
    length d = 32 /\
    d = Sha256.sha256_reference data.
Proof.
  exists (Sha256.sha256_reference data).
  split; [apply Sum256_reference |].
  split; [apply sha256_reference_length | reflexivity].
Qed.

(** X11: [base64.RawURLEncoding.EncodeToString] loses nothing: two byte
    strings have the same encoding only when they are equal; the
    encoding of [n] bytes has [(8 n + 5) / 6] characters, all of the
    URL-safe alphabet. *)
Theorem RawURLEncoding_injective (a b : list byte) :
  (EncodeToString RawURLEncoding a = EncodeToString RawURLEncoding b <-> a = b) /\
  String.length (EncodeToString RawURLEncoding a) = (length a * 8 + 5) / 6 /\
  Forall (fun c => In c url_safe_alphabet)
         (of_string (EncodeToString RawURLEncoding a)).
Proof.
  unfold EncodeToString. split; [split |].
  - intros Heq. apply Encode_inj.
    rewrite <- (of_string_to_string (Encode RawURLEncoding a)), Heq.
    apply of_string_to_string.
  - now intros ->.
  - rewrite to_string_length, of_string_to_string.
    split; [apply Encode_length | apply Encode_alphabet].
Qed.

(** X12: two verifiers have the same code challenge exactly when they
    have the same SHA-256 digest: the encoding adds no collision of its
    own. *)
Theorem codeChallenge_collision_is_digest_collision (V1 V2 : list byte) :
  Pkce.codeChallenge V1 = Pkce.codeChallenge V2 <->
  Sha256.Sum256 V1 = Sha256.Sum256 V2.
Proof.
  rewrite !codeChallenge_total, !Sum256_reference.
  unfold Pkce.reference_challenge. rewrite <- !EncodeToString_reference.
  unfold EncodeToString.
  generalize (Sha256.sha256_reference V1) (Sha256.sha256_reference V2).
  intros d1 d2. split.
  - intros Heq.
    apply (f_equal (fun o => match o with
                             | Some t => of_string t
                             | None => []
                             end)) in Heq.
    rewrite !of_string_to_string in Heq. apply Encode_inj in Heq.
    now rewrite Heq.
  - intros Heq.
    apply (f_equal (fun o => match o with Some d => d | None => [] end)) in Heq.
    now rewrite Heq.
Qed.

End ChallengeMore.

(** ** More on [strings.Split] *)

(** X13: [strings.Split], as [Link] calls it on the scope string, never
    returns an empty list, returns pieces that do not contain the
    separator, and loses nothing: joining the pieces with the separator
    gives the string back. *)
Theorem Split_Join_round_trip (s : string) (sep : ascii) :
  Strings.Split s sep <> [] /\
  Forall (fun piece => ~ In sep (list_ascii_of_string piece)) (Strings.Split s sep) /\
  Strings.Join (Strings.Split s sep) (String sep "") = s.
Proof.
  split; [apply Split_not_nil |].
  split; [apply Split_pieces | apply Join_Split].
Qed.

(** ** More on the code exchange *)

Section LinkMore.
Import Go Fitbit Steps.
Context {ext : Externals}.
Local Open Scope string_scope.
Local Open Scope list_scope.



(** X16: the token of a response of [Link], converted by [asOAuth2Token],
    has the access token, token type, refresh token and expiry of the
    token received from the exchange, but none of its extra fields:
    [Extra] is nil for every key, [user_id] and [scope] included. *)
Theorem Link_token_conversion_drops_extras (c : Client) (ctx : Context)
    (code codeVerifier reqURIString : string) (w : World)
    (received : OAuth2.Token) (resp : LinkResponse) :
  fst (exchangeReply (link_request c ctx code codeVerifier reqURIString) (env w))
    = inr received ->
  fst (Link c ctx code codeVerifier reqURIString w) = Returns (Some resp, None) ->
  exists o : OAuth2.Token,
    asOAuth2Token (Some (token resp)) = Some o /\
    OAuth2.AccessToken o = OAuth2.AccessToken received /\
    OAuth2.TokenType o = OAuth2.TokenType received /\
    OAuth2.RefreshToken o = OAuth2.RefreshToken received /\
    OAuth2.Expiry o = OAuth2.Expiry received /\
    (forall key : string, OAuth2.Extra o key = AnyNil) /\
    OAuth2.Extra o "user_id" <> OAuth2.Extra received "user_id" /\
    OAuth2.Extra o "scope" <> OAuth2.Extra received "scope".
Proof.
  intros Hreply Hlink.
  destruct (exchangeReply (link_request c ctx code codeVerifier reqURIString) (env w))
    as [r env1] eqn:Hr.
  cbn [fst] in Hreply. subst r.
  rewrite (Link_after_exchange _ _ _ _ _ _ _ _ Hr) in Hlink.
  destruct (OAuth2.Extra received "user_id") as [| U | | | |] eqn:HU;
    cbn [assert_string] in Hlink; try discriminate Hlink.
  destruct (OAuth2.Extra received "scope") as [| S | | | |] eqn:HS;
    cbn [assert_string] in Hlink; try discriminate Hlink.
  injection Hlink as <-.
  eexists. split; [reflexivity |].
  cbn [token AccessToken TokenType RefreshToken Expiry OAuth2.AccessToken
       OAuth2.TokenType OAuth2.RefreshToken OAuth2.Expiry OAuth2.Extra OAuth2.raw].
  repeat split; discriminate.
Qed.

(** X17: the error that [Link] returns for a failed exchange keeps its
    cause on the chain: when the failure is not parsed, [errors.As] finds
    in it the same [RetrieveError], or none, as in the error of the
    exchange; when it is parsed, [errors.Unwrap] gives the parsed error. *)
Theorem Link_error_keeps_cause (c : Client) (ctx : Context)
    (code codeVerifier reqURIString : string) (w : World)
    (err : error) (env1 : Env) :
  exchangeReply (link_request c ctx code codeVerifier reqURIString) (env w)
    = (inl err, env1) ->
  exists returned : error,
    fst (Link c ctx code codeVerifier reqURIString w) = Returns (None, Some returned) /\
    ((Unwrap returned = Some err /\
      As_RetrieveError returned = As_RetrieveError err /\
      forall response body,
        As_RetrieveError err = Some (response, body) ->
        parseError response body = None) \/
     (exists response body parsed,
        As_RetrieveError err = Some (response, body) /\
        parseError response body = Some parsed /\
        Unwrap returned = Some parsed /\
        As_RetrieveError returned = As_RetrieveError parsed)).
Proof.
  intros Hreply. rewrite (Link_after_exchange _ _ _ _ _ _ _ _ Hreply).
  destruct (As_RetrieveError err) as [[response body] |] eqn:Has.
  - destruct (parseError response body) as [parsed |] eqn:Hparse.
    + eexists. split; [reflexivity |]. right.
      exists response, body, parsed. repeat split; assumption.
    + eexists. split; [reflexivity |]. left. cbn [Unwrap As_RetrieveError].
      repeat split; try assumption.
      intros response' body' Heq. injection Heq as <- <-. exact Hparse.
  - eexists. split; [reflexivity |]. left. cbn [Unwrap As_RetrieveError].
    repeat split; try assumption. intros response body Heq. discriminate Heq.
Qed.

End LinkMore.

(** ** Further scenarios *)

Section FurtherScenarios.
Import Go Fitbit Steps.
Local Open Scope string_scope.
Local Open Scope list_scope.

(** The first refresh of the failing provider times out: the error comes
    back, with or without a hook. *)
Lemma Token_timeout_scenario :
  lastToken (Outage.refresher None) = Some Scenario.issued /\
  @refreshReply Outage.stub
    (refresh_request (Outage.refresher None) Scenario.issued)
    (env (Outage.world 0))
    = ((None, Some Scenario.timeout), 1) /\
  tokenRefresher_Token (Outage.refresher (Some Outage.countingHook)) (Outage.world 0) =
    (Returns (None, Some Scenario.timeout),
     Outage.refresher (Some Outage.countingHook),
     mkWorld (ext := Outage.stub) 1
       [refresh_request (Outage.refresher None) Scenario.issued]).
Proof.
  assert (h1 : lastToken (Outage.refresher None) = Some Scenario.issued)
    by reflexivity.
  assert (h2 : @refreshReply Outage.stub
                 (refresh_request (Outage.refresher None) Scenario.issued)
                 (env (Outage.world 0))
               = ((None, Some Scenario.timeout), 1)) by reflexivity.
  repeat (split; [assumption |]).
  exact (proj2 (Token_endpoint_error_ignores_hook (Outage.refresher None)
                  (Outage.world 0) Scenario.issued None Scenario.timeout 1 h1 h2)
               (Some Outage.countingHook)).
Defined.

(** A granted refresh: the next request carries the new refresh token. *)
Lemma Token_rotation_next_request :
  lastToken (Scenario.refresher (Some Scenario.savingHook)) = Some Scenario.issued /\
  @refreshReply Scenario.stub
    (refresh_request (Scenario.refresher (Some Scenario.savingHook)) Scenario.issued)
    (env Scenario.start)
    = ((Some Scenario.refreshed, None), 1) /\
  hook_step (client (Scenario.refresher (Some Scenario.savingHook)))
    (Some Scenario.issued) (Some Scenario.refreshed) 1 = (None, 2) /\
  lastToken
    (snd (fst (tokenRefresher_Token (Scenario.refresher (Some Scenario.savingHook))
                 Scenario.start)))
    = Some Scenario.refreshed /\
  Url.Get (refresh_values Scenario.refreshed) "refresh_token" = "RT2".
Proof.
  assert (h1 : lastToken (Scenario.refresher (Some Scenario.savingHook))
               = Some Scenario.issued) by reflexivity.
  assert (h2 : @refreshReply Scenario.stub
                 (refresh_request (Scenario.refresher (Some Scenario.savingHook))
                    Scenario.issued) (env Scenario.start)
               = ((Some Scenario.refreshed, None), 1)) by reflexivity.
  assert (h3 : hook_step (client (Scenario.refresher (Some Scenario.savingHook)))
                 (Some Scenario.issued) (Some Scenario.refreshed) 1 = (None, 2))
    by reflexivity.
  repeat (split; [assumption |]).
  destruct (Token_rotates_refresh_token
              (Scenario.refresher (Some Scenario.savingHook)) Scenario.start
              Scenario.issued Scenario.refreshed 1 2 h1 h2 h3) as [Hlast Hnext].
  split; [exact Hlast |]. exact (proj2 (Hnext Scenario.start)).
Defined.

(** The second answer of the failing provider has neither token nor
    error: the refresher is left without a token. *)
Lemma Token_nil_reply_scenario :
  lastToken (Outage.refresher (Some Outage.countingHook)) = Some Scenario.issued /\
  @refreshReply Outage.stub
    (refresh_request (Outage.refresher (Some Outage.countingHook)) Scenario.issued)
    (env (Outage.world 1))
    = ((None, None), 2) /\
  hook_step (client (Outage.refresher (Some Outage.countingHook)))
    (Some Scenario.issued) None 2 = (None, 102) /\
  tokenRefresher_Token (Outage.refresher (Some Outage.countingHook)) (Outage.world 1) =
    (Returns (None, None),
     mkTokenRefresher (ext := Outage.stub) 0
       (client (Outage.refresher (Some Outage.countingHook))) None,
     mkWorld (ext := Outage.stub) 102
       [refresh_request (Outage.refresher (Some Outage.countingHook)) Scenario.issued]).
Proof.
  assert (h1 : lastToken (Outage.refresher (Some Outage.countingHook))
               = Some Scenario.issued) by reflexivity.
  assert (h2 : @refreshReply Outage.stub
                 (refresh_request (Outage.refresher (Some Outage.countingHook))
                    Scenario.issued) (env (Outage.world 1))
               = ((None, None), 2)) by reflexivity.
  assert (h3 : hook_step (client (Outage.refresher (Some Outage.countingHook)))
                 (Some Scenario.issued) None 2 = (None, 102)) by reflexivity.
  repeat (split; [assumption |]).
  exact (proj1 (Token_nil_reply_strands_refresher
                  (Outage.refresher (Some Outage.countingHook)) (Outage.world 1)
                  Scenario.issued 2 102 h1 h2 h3)).
Defined.

(** The token returned by a granted refresh has no extra field. *)
Lemma Token_no_extras_scenario :
  fst (fst (tokenRefresher_Token (Scenario.refresher None) Scenario.start)) =
    Returns (asOAuth2Token (Some Scenario.refreshed), None) /\
  forall key : string,
    OAuth2.Extra
      (OAuth2.mkToken "AT2" "Bearer" "RT2" 7200%Z (fun _ => AnyNil)) key = AnyNil.
Proof.
  assert (h1 : fst (fst (tokenRefresher_Token (Scenario.refresher None) Scenario.start)) =
               Returns (Some (OAuth2.mkToken "AT2" "Bearer" "RT2" 7200%Z
                                (fun _ => AnyNil)), None))
    by reflexivity.
  split; [exact h1 |].
  exact (proj1 (proj2 (Token_returned_token_has_no_extras
                         (Scenario.refresher None) Scenario.start _ _ h1))).
Defined.

(** With the default lengths the state and the verifier have 128
    characters. *)
Lemma AuthCodeURL_lengths_scenario :
  (forall (n : Z) (e : @Env Scenario.stub),
     length (fst (@randomBytes Scenario.stub n e)) = Z.to_nat n) /\
  exists (u : Url.URL) (state verifier challenge : string),
    fst (AuthCodeURL defaultLengths Scenario.publicClient "https://app/callback"
           Scenario.start) = Returns (u, state, verifier) /\
    String.length state = 128 /\
    String.length verifier = 128 /\
    Url.Query u !! "code_challenge" = Some [challenge] /\
    String.length challenge = 43.
Proof.
  assert (h1 : forall (n : Z) (e : @Env Scenario.stub),
             length (fst (@randomBytes Scenario.stub n e)) = Z.to_nat n)
    by (intros n e; simpl; apply repeat_length).
  split; [exact h1 |].
  exact (AuthCodeURL_lengths defaultLengths Scenario.publicClient
           "https://app/callback" Scenario.start h1).
Defined.

(** The token of the exchange scenario, converted, has lost [user_id]. *)
Lemma Link_conversion_scenario :
  fst (@exchangeReply Scenario.stub
         (link_request (Scenario.serverClient None) 0 "abc123" "Vxyz"
            "https://app/callback") (env Scenario.start))
    = inr Scenario.exchanged /\
  exists (resp : LinkResponse) (o : OAuth2.Token),
    fst (Link (Scenario.serverClient None) 0 "abc123" "Vxyz" "https://app/callback"
           Scenario.start) = Returns (Some resp, None) /\
    asOAuth2Token (Some (token resp)) = Some o /\
    OAuth2.AccessToken o = "AT1" /\
    OAuth2.Extra o "user_id" = AnyNil.
Proof.
  assert (h1 : fst (@exchangeReply Scenario.stub
                      (link_request (Scenario.serverClient None) 0 "abc123" "Vxyz"
                         "https://app/callback") (env Scenario.start))
               = inr Scenario.exchanged) by (vm_compute; reflexivity).
  split; [exact h1 |].
  assert (h2 : fst (Link (Scenario.serverClient None) 0 "abc123" "Vxyz"
                      "https://app/callback" Scenario.start) =
               Returns (Some (mkLinkResponse "U1"
                                (newScope ["activity"; "heartrate"])
                                Scenario.issued), None))
    by (vm_compute; reflexivity).
  destruct (Link_token_conversion_drops_extras (Scenario.serverClient None) 0
              "abc123" "Vxyz" "https://app/callback" Scenario.start
              Scenario.exchanged _ h1 h2)
    as (o & Ho & Hat & _ & _ & _ & Hextra & _).
  eexists _, o. split; [exact h2 |]. split; [exact Ho |].
  split; [exact Hat | apply Hextra].
Defined.

(** An exchange that times out: no [RetrieveError] before, none after. *)
Lemma Link_timeout_cause_scenario :
  @exchangeReply Scenario.stub
    (link_request (Scenario.serverClient None) 0 "later" "Vxyz" "https://app/callback")
    (env Scenario.start)
    = (inl Scenario.timeout, 1) /\
  exists returned : error,
    fst (Link (Scenario.serverClient None) 0 "later" "Vxyz" "https://app/callback"
           Scenario.start) = Returns (None, Some returned) /\
    (Unwrap returned = Some Scenario.timeout \/
     exists parsed, Unwrap returned = Some parsed).
Proof.
  assert (h1 : @exchangeReply Scenario.stub
                 (link_request (Scenario.serverClient None) 0 "later" "Vxyz"
                    "https://app/callback") (env Scenario.start)
               = (inl Scenario.timeout, 1)) by (vm_compute; reflexivity).
  split; [exact h1 |].
  destruct (Link_error_keeps_cause (Scenario.serverClient None) 0 "later" "Vxyz"
              "https://app/callback" Scenario.start Scenario.timeout 1 h1)
    as (returned & Hret & [(Hun & _ & _) | (_ & _ & parsed & _ & _ & Hun & _)]);
    exists returned; (split; [exact Hret |]); eauto.
Defined.

End FurtherScenarios.
